(** * branded-token.js: the BrandedToken client and the GatewayComposer staker

    A shallow embedding of the two JavaScript classes of the repository,

      - [BrandedToken], the contract interaction class of the branded token,
      - [Staker] (libs/helpers/stake/gateway_composer/staker.js),

    and the properties of them that the specification states.

    JavaScript values are an inductive type, objects are finite maps from
    property names to values, and every function that logs, reads from the
    chain or submits a transaction is a computation in a small monad that
    threads the list of observable events and ends in a value, a rejected
    promise or a thrown exception. *)

From Stdlib Require Import QArith.
From stdpp Require Import gmap strings list fin_maps pretty.

Local Set Warnings "-register-all".
Local Open Scope string_scope.
Local Open Scope list_scope.

(** ** JavaScript values *)

(** Numbers: the finite doubles are rationals; comparison of finite doubles
    is comparison of the rationals they denote. *)
Inductive jsnum :=
| NaN
| Inf (negative : bool)
| Fin (q : Q).

(** Values.  Besides data, three kinds of objects of the program itself:
    a connection ([new Web3(...)], identified by a number), the ABI/BIN
    provider ([new AbiBinProvider()]) and an instance of [Staker] with its
    own properties.  There are no function values: a property that holds a
    function in JavaScript is not a property of these values. *)
Inductive jsval :=
| JUndefined
| JNull
| JBool (b : bool)
| JNum (n : jsnum)
| JStr (s : string)
| JArr (items : list jsval)
| JObj (props : gmap string jsval)
| JWeb3 (conn : nat)
| JAbiBinProvider
| JStaker (fields : gmap string jsval).

Definition num (z : Z) : jsval := JNum (Fin (inject_Z z)).

(** ToBoolean: the falsy values are [undefined], [null], [false], [+0], [-0],
    [NaN] and the empty string. *)
Definition ToBoolean (v : jsval) : bool :=
  match v with
  | JUndefined | JNull => false
  | JBool b => b
  | JNum NaN => false
  | JNum (Inf _) => true
  | JNum (Fin q) => negb (Qeq_bool q 0)
  | JStr s => negb (String.eqb s "")
  | JArr _ | JObj _ | JWeb3 _ | JAbiBinProvider | JStaker _ => true
  end.

(** [a || b] *)
Definition js_or (a b : jsval) : jsval := if ToBoolean a then a else b.

(** IsLessThan on numbers: [None] is the "undefined" answer that a [NaN]
    operand gives. *)
Definition num_lt (x y : jsnum) : option bool :=
  match x, y with
  | NaN, _ | _, NaN => None
  | Inf false, _ => Some false
  | Inf true, Inf true => Some false
  | Inf true, _ => Some true
  | Fin _, Inf neg => Some (negb neg)
  | Fin p, Fin q => Some (negb (Qle_bool q p))
  end.

(** [x > y] is IsLessThan(y, x) with undefined read as false. *)
Definition js_gt (x y : jsnum) : bool :=
  match num_lt y x with Some b => b | None => false end.

(** [x <= y] is the negation of IsLessThan(y, x), and false when that is
    undefined. *)
Definition js_le (x y : jsnum) : bool :=
  match num_lt y x with Some b => negb b | None => false end.

(** [v === q] for a number literal [q]. *)
Definition strict_eq_num (v : jsval) (q : Q) : bool :=
  match v with
  | JNum (Fin p) => Qeq_bool p q
  | _ => false
  end.

(** The integer-indexed own properties of an array or a string. *)
Definition index_props (items : list jsval) : gmap string jsval :=
  list_to_map (imap (fun i x => (pretty i, x)) items).

Definition chars (s : string) : list jsval :=
  (fun c => JStr (String c EmptyString)) <$> String.list_ascii_of_string s.

(** The own enumerable properties that [Object.assign] copies from a source.
    The properties of a connection and of the provider are not data and are
    not modelled. *)
Definition own_enumerable (v : jsval) : gmap string jsval :=
  match v with
  | JObj props => props
  | JStaker fields => fields
  | JArr items => index_props items
  | JStr s => index_props (chars s)
  | _ => ∅
  end.

(** [Object.assign(target, source)] on the properties of the target: the
    source's properties win. *)
Definition Object_assign (target : gmap string jsval) (source : jsval)
  : gmap string jsval :=
  own_enumerable source ∪ target.

(** ** Errors and results *)

(** A template literal: text with interpolated values. *)
Inductive part :=
| Lit (s : string)
| Sub (v : jsval).

Inductive error :=
| TypeError (message : list part)
| Error (message : list part)
| ReferenceError (name : string)
| Remote (reason : jsval).

(** How an evaluation ends.  For a synchronous function [Ok] is its return
    value; for a function that returns a promise, [Ok] is the value the
    promise is fulfilled with and [Rejected] the reason it is rejected with;
    [Thrown] is an exception that left the function. *)
Inductive result (A : Type) :=
| Ok (a : A)
| Rejected (e : error)
| Thrown (e : error).
Arguments Ok {A} a.
Arguments Rejected {A} e.
Arguments Thrown {A} e.

(** ** Contracts, transaction objects and events *)

(** A contract handle: [new web3.eth.Contract(abi, address, options)]. *)
Record contract := Contract {
  c_conn : nat;
  c_abi : jsval;
  c_address : jsval;
  c_options : jsval
}.

(** An unsent call: [contract.methods.name(args...)], or
    [contract.deploy({data, arguments})]. *)
Inductive tx :=
| MethodCall (c : contract) (name : string) (args : list jsval)
| Deployment (c : contract) (data : jsval) (arguments : list jsval).

(** What the program does that can be observed from outside. *)
Inductive event :=
| Log (message : list part)                             (* logger.error *)
| Console (text : string)                               (* console.log *)
| Read (c : contract) (name : string) (args : list jsval)  (* methods.name(args).call() *)
| Submit (t : tx) (options : jsval).                    (* a transaction is sent *)

Definition is_network (e : event) : bool :=
  match e with
  | Read _ _ _ | Submit _ _ => true
  | Log _ | Console _ => false
  end.

(** ** The monad: events so far in, result and events out *)

Definition M (A : Type) : Type := list event -> result A * list event.

Definition ret {A} (a : A) : M A := fun t => (Ok a, t).

Definition bind {A B} (m : M A) (k : A -> M B) : M B :=
  fun t =>
    match m t with
    | (Ok a, t') => k a t'
    | (Rejected e, t') => (Rejected e, t')
    | (Thrown e, t') => (Thrown e, t')
    end.

Definition throw {A} (e : error) : M A := fun t => (Thrown e, t).

(** [return Promise.reject(e)] *)
Definition reject {A} (e : error) : M A := fun t => (Rejected e, t).

Definition emit (e : event) : M unit := fun t => (Ok tt, t ++ [e]).

Definition lift {A} (r : result A) : M A := fun t => (r, t).

(** The body of an [async] function: an exception that leaves the body
    rejects the promise the function returns. *)
Definition async {A} (body : M A) : M A :=
  fun t =>
    match body t with
    | (Thrown e, t') => (Rejected e, t')
    | r => r
    end.

Declare Scope js_scope.
Delimit Scope js_scope with js.
Notation "'let!' x ':=' m 'in' k" := (bind m (fun x => k))
  (at level 10, x name, m at level 100, k at level 200) : js_scope.
Notation "m '>>' k" := (bind m (fun _ => k))
  (at level 100, k at level 200, right associativity) : js_scope.
Local Open Scope js_scope.

(** The events a computation adds when it starts from no events. *)
Definition run {A} (m : M A) : result A * list event := m [].

(** Reading a property.  Reading from [undefined] or [null] throws. *)
Definition get_prop (v : jsval) (k : string) : result jsval :=
  match v with
  | JUndefined | JNull =>
      Thrown (TypeError [Lit "Cannot read property '"; Lit k; Lit "' of "; Sub v])
  | JObj props | JStaker props => Ok (default JUndefined (props !! k))
  | JArr items =>
      if String.eqb k "length" then Ok (num (Z.of_nat (length items)))
      else Ok (default JUndefined (index_props items !! k))
  | JStr s =>
      if String.eqb k "length" then Ok (num (Z.of_nat (String.length s)))
      else Ok (default JUndefined (index_props (chars s) !! k))
  | JBool _ | JNum _ | JWeb3 _ | JAbiBinProvider => Ok JUndefined
  end.

(** [web3 instanceof Web3] *)
Definition instanceof_Web3 (v : jsval) : bool :=
  match v with JWeb3 _ => true | _ => false end.

(** ** The collaborators that are not part of the two classes *)

Record Env := {
  (** [Web3.utils.isAddress] of the web3 library. *)
  isAddress : jsval -> bool;
  (** [Contracts.getBrandedToken(web3, address)]: the contract handle, or
      [None] for a falsy answer. *)
  getBrandedToken : jsval -> jsval -> option contract;
  (** [AbiBinProvider.getBIN] and [getABI]. *)
  getBIN : string -> jsval;
  getABI : string -> jsval;
  (** What the chain answers to a read and to a submitted transaction, given
      everything that happened before: [inl] fulfils the promise, [inr]
      rejects it. *)
  call_reply : list event -> contract -> string -> list jsval -> jsval + jsval;
  send_reply : list event -> tx -> jsval -> jsval + jsval
}.

(** ** The class [BrandedToken] *)

Module BrandedToken.

Definition ContractName : string := "BrandedToken".

(** An instance: the three properties the constructor stores. *)
Record instance := Instance {
  web3 : jsval;
  address : jsval;
  contract_ : contract
}.

Section WithEnv.
Variable env : Env.

(** Modelled from the spec: [logger.error(message)] of the logger module,
    whose code is not at hand.  It records the message and does not alter
    the control flow. *)
Definition logger_error (message : list part) : M unit := emit (Log message).

(** Modelled from the spec: [Utils.sendTransaction(tx, txOptions)], required
    from utils/Utils, whose code is not at hand.  It submits the prepared
    call with the options and returns a promise of the receipt, rejected
    with the error of the connection when the submission fails. *)
Definition sendTransaction (t : tx) (txOptions : jsval) : M jsval :=
  fun tr =>
    match send_reply env tr t txOptions with
    | inl receipt => (Ok receipt, tr ++ [Submit t txOptions])
    | inr reason => (Rejected (Remote reason), tr ++ [Submit t txOptions])
    end.

(** [contract.methods.name(args...).call()] *)
Definition call (c : contract) (name : string) (args : list jsval) : M jsval :=
  fun tr =>
    match call_reply env tr c name args with
    | inl value => (Ok value, tr ++ [Read c name args])
    | inr reason => (Rejected (Remote reason), tr ++ [Read c name args])
    end.

Definition constructor (web3 address : jsval) : M instance :=
  if negb (instanceof_Web3 web3) then
    let message := [Lit "Mandatory Parameter 'web3' is missing or invalid"] in
    logger_error message >>
    throw (TypeError message)
  else if negb (isAddress env address) then
    let message :=
      [Lit "Mandatory Parameter 'address' is missing or invalid: "; Sub address] in
    logger_error message >>
    throw (TypeError message)
  else
    match getBrandedToken env web3 address with
    | None =>
        let message :=
          [Lit "Could not load branded token contract for: "; Sub address] in
        logger_error message >>
        throw (TypeError message)
    | Some c => ret (Instance web3 address c)
    end.

Definition deployRawTx
    (web3 valueToken symbol name decimals : jsval)
    (conversionRate conversionRateDecimals : jsnum)
    (organization : jsval) : M tx :=
  if negb (instanceof_Web3 web3) then
    let message :=
      [Lit "Mandatory Parameter 'web3' is missing or invalid: "; Sub web3] in
    logger_error message >>
    throw (TypeError message)
  else if negb (isAddress env valueToken) then
    let message := [Lit "Invalid valueToken address: "; Sub valueToken; Lit "."] in
    logger_error message >>
    throw (TypeError message)
  else if negb (isAddress env organization) then
    let message :=
      [Lit "Invalid organization address: "; Sub organization; Lit "."] in
    logger_error message >>
    throw (TypeError message)
  else if negb (js_gt conversionRate (Fin 0)) then
    let message :=
      [Lit "Invalid conversion rate: "; Sub (JNum conversionRate);
       Lit ". It should be greater than zero"] in
    logger_error message >>
    throw (TypeError message)
  else if negb (js_le conversionRateDecimals (Fin 5)) then
    let message :=
      [Lit "Invalid conversion rate decimal: "; Sub (JNum conversionRateDecimals);
       Lit ". It should be less than 5"] in
    logger_error message >>
    throw (TypeError message)
  else
    let bin := getBIN env ContractName in
    let args :=
      [valueToken; symbol; name; decimals; JNum conversionRate;
       JNum conversionRateDecimals; organization] in
    match getBrandedToken env web3 JUndefined with
    | Some contract => ret (Deployment contract bin args)
    | None => throw (TypeError [Lit "contract.deploy is not a function"])
    end.

Definition deploy
    (web3 valueToken symbol name decimals : jsval)
    (conversionRate conversionRateDecimals : jsnum)
    (organization txOptions : jsval) : M instance :=
  async (
    if negb (ToBoolean txOptions) then
      let err := TypeError [Lit "Invalid transaction options."] in
      logger_error [Lit "Invalid transaction options: "; Sub txOptions] >>
      reject err
    else
      let! from := lift (get_prop txOptions "from") in
      if negb (isAddress env from) then
        let message := [Lit "Invalid from address: "; Sub from; Lit "."] in
        logger_error message >>
        reject (TypeError message)
      else
        let! tx :=
          deployRawTx web3 valueToken symbol name decimals conversionRate
            conversionRateDecimals organization in
        let! txReceipt := sendTransaction tx txOptions in
        let! address := lift (get_prop txReceipt "contractAddress") in
        constructor web3 address).

Definition convertToBrandedTokens (this : instance) (valueTokens : jsval)
  : M jsval :=
  call (contract_ this) "convertToBrandedTokens" [valueTokens].

Definition requestStakeRawTx (this : instance) (stakeAmount mintAmount : jsval)
  : M tx :=
  ret (MethodCall (contract_ this) "requestStake" [stakeAmount; mintAmount]).

Definition requestStake (this : instance) (stakeAmount txOptions : jsval)
  : M jsval :=
  async (
    if negb (ToBoolean txOptions) then
      let message := [Lit "Invalid transaction options: "; Sub txOptions; Lit "."] in
      logger_error message >>
      reject (TypeError message)
    else
      let! from := lift (get_prop txOptions "from") in
      if negb (isAddress env from) then
        let message :=
          [Lit "Invalid from address "; Sub from; Lit " in transaction options."] in
        logger_error message >>
        reject (TypeError message)
      else
        let! mintedAmount := convertToBrandedTokens this stakeAmount in
        let! tx := requestStakeRawTx this stakeAmount mintedAmount in
        sendTransaction tx txOptions).

Definition acceptStakeRequestRawTx (this : instance)
    (stakeRequestHash r s v : jsval) : M tx :=
  if negb (ToBoolean stakeRequestHash) then
    let message := [Lit "Invalid stakeRequestHash: "; Sub stakeRequestHash; Lit "."] in
    logger_error message >>
    reject (TypeError message)
  else if negb (ToBoolean r) then
    let message := [Lit "Invalid r of signature: "; Sub r; Lit "."] in
    logger_error message >>
    reject (TypeError message)
  else if negb (ToBoolean s) then
    let message := [Lit "Invalid s of signature: "; Sub s; Lit "."] in
    logger_error message >>
    reject (TypeError message)
  else if negb (ToBoolean v) then
    let message := [Lit "Invalid v of signature: "; Sub v; Lit "."] in
    logger_error message >>
    reject (TypeError message)
  else
    ret (MethodCall (contract_ this) "acceptStakeRequest" [stakeRequestHash; r; s; v]).

Definition acceptStakeRequest (this : instance)
    (stakeRequestHash r s v txOptions : jsval) : M jsval :=
  async (
    if negb (ToBoolean txOptions) then
      let message := [Lit "Invalid transaction options: "; Sub txOptions; Lit "."] in
      logger_error message >>
      reject (TypeError message)
    else
      let! from := lift (get_prop txOptions "from") in
      if negb (isAddress env from) then
        let message :=
          [Lit "Invalid from address "; Sub from; Lit " in transaction options."] in
        logger_error message >>
        reject (TypeError message)
      else
        let! tx := acceptStakeRequestRawTx this stakeRequestHash r s v in
        sendTransaction tx txOptions).

Definition liftRestrictionRawTx (this : instance) (addresses : jsval) : M tx :=
  if negb (ToBoolean addresses)
     || match get_prop addresses "length" with
        | Ok len => strict_eq_num len 0
        | _ => false
        end
  then
    let message := [Lit "At least one addresses must be defined : "; Sub addresses] in
    logger_error message >>
    reject (TypeError message)
  else
    ret (MethodCall (contract_ this) "liftRestriction" [addresses]).

Definition liftRestriction (this : instance) (addresses txOptions : jsval)
  : M jsval :=
  async (
    if negb (ToBoolean txOptions) then
      let message := [Lit "Invalid transaction options: "; Sub txOptions; Lit "."] in
      logger_error message >>
      reject (TypeError message)
    else
      let! from := lift (get_prop txOptions "from") in
      if negb (isAddress env from) then
        let message :=
          [Lit "Invalid from address "; Sub from; Lit " in transaction options."] in
        logger_error message >>
        reject (TypeError message)
      else
        let! tx := liftRestrictionRawTx this addresses in
        sendTransaction tx txOptions).

Definition isUnrestricted (this : instance) (address : jsval) : M jsval :=
  call (contract_ this) "isUnrestricted" [address].

Definition rejectStakeRequestRawTx (this : instance) (stakeRequestHash : jsval)
  : M tx :=
  if negb (ToBoolean stakeRequestHash) then
    let message := [Lit "Invalid stakeRequestHash: "; Sub stakeRequestHash; Lit "."] in
    logger_error message >>
    reject (TypeError message)
  else
    ret (MethodCall (contract_ this) "rejectStakeRequest" [stakeRequestHash]).

Definition rejectStakeRequest (this : instance)
    (stakeRequestHash txOptions : jsval) : M jsval :=
  async (
    if negb (ToBoolean txOptions) then
      let message := [Lit "Invalid transaction options: "; Sub txOptions; Lit "."] in
      logger_error message >>
      reject (TypeError message)
    else
      let! from := lift (get_prop txOptions "from") in
      if negb (isAddress env from) then
        reject (TypeError
          [Lit "Invalid from address "; Sub from; Lit " in transaction options."])
      else
        let! tx := rejectStakeRequestRawTx this stakeRequestHash in
        sendTransaction tx txOptions).

Definition redeemRawTx (this : instance) (amount : jsval) : M tx :=
  if negb (ToBoolean amount) then
    reject (TypeError [Lit "Invalid redeemAmount: "; Sub amount; Lit "."])
  else
    ret (MethodCall (contract_ this) "redeem" [amount]).

Definition redeem (this : instance) (amount txOptions : jsval) : M jsval :=
  async (
    if negb (ToBoolean txOptions) then
      reject (TypeError [Lit "Invalid transaction options: "; Sub txOptions; Lit "."])
    else
      let! from := lift (get_prop txOptions "from") in
      if negb (isAddress env from) then
        reject (TypeError
          [Lit "Invalid from address "; Sub from; Lit " in transaction options."])
      else
        let! txObject := redeemRawTx this amount in
        sendTransaction txObject txOptions).

Definition convertToValueTokens (this : instance) (brandedTokens : jsval)
  : M jsval :=
  call (contract_ this) "convertToValueTokens" [brandedTokens].

End WithEnv.
End BrandedToken.

(** ** The class [Staker] *)

Module Staker.

Definition gatewayComposerContractName : string := "GatewayComposer".
Definition brandedTokenContractName : string := "BrandedToken".

(** [oThis.name]: an own property of the instance, [undefined] when the
    instance has no such property. *)
Definition field (oThis : gmap string jsval) (name : string) : jsval :=
  default JUndefined (oThis !! name).

(** The constructor assigns six properties to the new instance. *)
Definition constructor
    (originWeb3 valueToken brandedToken gatewayComposer txOptions : jsval)
  : gmap string jsval :=
  let oThis : gmap string jsval := ∅ in
  let oThis := <["originWeb3" := originWeb3]> oThis in
  let oThis := <["valueToken" := valueToken]> oThis in
  let oThis := <["gatewayComposer" := gatewayComposer]> oThis in
  let oThis := <["brandedToken" := brandedToken]> oThis in
  let oThis := <["txOptions" := txOptions]> oThis in
  let oThis := <["abiBinProvider" := JAbiBinProvider]> oThis in
  oThis.

(** The member expression [web3.eth.Contract]: the constructor of contract
    handles of connection [c] when [web3] is that connection; otherwise the
    two property reads happen and what they give is not a constructor. *)
Definition eth_Contract (web3 : jsval) : result (option nat) :=
  match web3 with
  | JWeb3 c => Ok (Some c)
  | _ =>
      match get_prop web3 "eth" with
      | Ok eth =>
          match get_prop eth "Contract" with
          | Ok _ => Ok None
          | Rejected e | Thrown e => Thrown e
          end
      | Rejected e | Thrown e => Thrown e
      end
  end.

(** [new C(abi, address, options)] once [C] and the arguments are evaluated. *)
Definition construct (C : option nat) (abi address options : jsval)
  : result contract :=
  match C with
  | Some c => Ok (Contract c abi address options)
  | None => Thrown (TypeError [Lit "web3.eth.Contract is not a constructor"])
  end.

(** The receiver of a method call [o.name(...)]: [o] has the methods of the
    class when it is an instance of [Staker] that no own property shadows. *)
Definition receiver (o : jsval) (name : string) : result (gmap string jsval) :=
  match o with
  | JStaker fields =>
      match fields !! name with
      | None => Ok fields
      | Some _ => Thrown (TypeError [Lit "oThis."; Lit name; Lit " is not a function"])
      end
  | _ =>
      match get_prop o name with
      | Ok _ => Thrown (TypeError [Lit "oThis."; Lit name; Lit " is not a function"])
      | Rejected e | Thrown e => Thrown e
      end
  end.

Section WithEnv.
Variable env : Env.

(** The bindings of the global object.  The module is in strict mode and
    declares none of [oThis], [originWeb3], [txOptions] at its top level, so
    where a method uses one of these names without declaring it, the name is
    looked up here, and a name that is not bound is a ReferenceError. *)
Variable globals : gmap string jsval.

Definition free (name : string) : result jsval :=
  match globals !! name with
  | Some v => Ok v
  | None => Thrown (ReferenceError name)
  end.

(** [provider.getABI(name)] *)
Definition provider_getABI (provider : jsval) (name : string) : result jsval :=
  match provider with
  | JAbiBinProvider => Ok (getABI env name)
  | _ =>
      match get_prop provider "getABI" with
      | Ok _ => Thrown (TypeError [Lit "oThis.abiBinProvider.getABI is not a function"])
      | Rejected e | Thrown e => Thrown e
      end
  end.

(** [txObject.call()] *)
Definition call (c : contract) (name : string) (args : list jsval) : M jsval :=
  fun tr =>
    match call_reply env tr c name args with
    | inl value => (Ok value, tr ++ [Read c name args])
    | inr reason => (Rejected (Remote reason), tr ++ [Read c name args])
    end.

(** [txObject.send(txOptions).on(...).on(...).on('error', ...)]: the
    transaction is sent; of the three observers only the one for ['error'] is
    registered under a name the connection emits, and it prints the error. *)
Definition send (t : tx) (txOptions : jsval) : M jsval :=
  fun tr =>
    match send_reply env tr t txOptions with
    | inl receipt => (Ok receipt, tr ++ [Submit t txOptions])
    | inr reason =>
        (Rejected (Remote reason),
         tr ++ [Submit t txOptions; Console "!! Error !!"])
    end.

Definition convertToBTToken (this : gmap string jsval)
    (vtAmountInWei brandedTokenContractAddress originWeb3 txOptions : jsval)
  : M jsval :=
  let oThis := this in
  let web3 := js_or originWeb3 (field oThis "originWeb3") in
  let brandedToken := js_or brandedTokenContractAddress (field oThis "brandedToken") in
  let! abi := lift (provider_getABI (field oThis "abiBinProvider") brandedTokenContractName) in
  let! C := lift (eth_Contract web3) in
  let! contract := lift (construct C abi brandedToken txOptions) in
  emit (Console "Getting Branded tokens equivalent to Value tokens") >>
  call contract "convertToBrandedTokens" [vtAmountInWei].

Definition approveForValueToken (this : gmap string jsval)
    (valueTokenAbi : list jsval) (stakeAmountInWei : jsval) : M tx :=
  let oThis := this in
  let! originWeb3 := lift (free "originWeb3") in
  let web3 := js_or originWeb3 (field oThis "originWeb3") in
  if Nat.eqb (length valueTokenAbi) 0 then
    throw (Error [Lit "Value token abi is not provided"])
  else
    let! C := lift (eth_Contract web3) in
    let! txOptions := lift (free "txOptions") in
    let! contract :=
      lift (construct C (JArr valueTokenAbi) (field oThis "valueToken") txOptions) in
    ret (MethodCall contract "approve" [field oThis "gatewayComposer"; stakeAmountInWei]).

Definition _requestStakeRawTx (this : gmap string jsval)
    (owner stakeVTAmountInWei mintBTAmountInWei gatewayAddress beneficiary
     gasPrice gasLimit nonce originWeb3 txOptions : jsval) : M tx :=
  let oThis := this in
  let web3 := js_or originWeb3 (field oThis "originWeb3") in
  let abiBinProvider := field oThis "abiBinProvider" in
  let! abi := lift (provider_getABI abiBinProvider gatewayComposerContractName) in
  let defaultOptions : gmap string jsval :=
    {[ "from" := owner;
       "to" := field oThis "gatewayComposer";
       "gas" := JStr "8000000" ]} in
  let defaultOptions :=
    if ToBoolean txOptions then Object_assign defaultOptions txOptions
    else defaultOptions in
  let txOptions := JObj defaultOptions in
  let! C := lift (eth_Contract web3) in
  let! contract := lift (construct C abi (field oThis "gatewayComposer") txOptions) in
  emit (Console "Constructed txObject for GatewayComposer.requestStake.") >>
  let txObject :=
    MethodCall contract "requestStake"
      [stakeVTAmountInWei; mintBTAmountInWei; gatewayAddress; beneficiary;
       gasPrice; gasLimit; nonce] in
  ret txObject.

Definition requestStake (this : gmap string jsval)
    (owner stakeVTAmountInWei mintBTAmountInWei gatewayAddress gasPrice gasLimit
     beneficiary stakerGatewayNonce originWeb3 txOptions : jsval) : M jsval :=
  let oThis := this in
  let! txObject :=
    _requestStakeRawTx oThis owner stakeVTAmountInWei mintBTAmountInWei
      gatewayAddress beneficiary gasPrice gasLimit stakerGatewayNonce
      originWeb3 txOptions in
  send txObject txOptions.

(** [stake] declares no [oThis]: each [oThis] in its body is the global name. *)
Definition stake (this : gmap string jsval)
    (valueTokenAbi : list jsval)
    (owner stakeVTAmountInWei mintBTAmountInWei gatewayAddress gasPrice gasLimit
     beneficiary stakerGatewayNonce : jsval) : M unit :=
  async (
    let! oThis := lift (free "oThis") in
    let! approver := lift (receiver oThis "approveForValueToken") in
    let! _ := approveForValueToken approver valueTokenAbi stakeVTAmountInWei in
    let! oThis := lift (free "oThis") in
    let! requester := lift (receiver oThis "requestStake") in
    let! originWeb3 := lift (get_prop oThis "originWeb3") in
    let! txOptions := lift (get_prop oThis "txOptions") in
    let! _ :=
      requestStake requester owner stakeVTAmountInWei mintBTAmountInWei
        gatewayAddress gasPrice gasLimit beneficiary stakerGatewayNonce
        originWeb3 txOptions in
    ret tt).

Definition _getStakeRequestHashForStakerRawTx (this : gmap string jsval)
    (staker originWeb3 txOptions : jsval) : M jsval :=
  let oThis := this in
  let web3 := js_or originWeb3 (field oThis "web3") in
  let! abi := lift (provider_getABI (field oThis "abiBinProvider") brandedTokenContractName) in
  let! C := lift (eth_Contract web3) in
  let! contract := lift (construct C abi (field oThis "brandedToken") txOptions) in
  call contract "stakeRequestHashes" [staker].

Definition _getStakeRequestRawTx (this : gmap string jsval)
    (stakeRequestHash originWeb3 txOptions : jsval) : M jsval :=
  let oThis := this in
  let web3 := js_or originWeb3 (field oThis "web3") in
  let! abi := lift (provider_getABI (field oThis "abiBinProvider") brandedTokenContractName) in
  let! C := lift (eth_Contract web3) in
  let! contract := lift (construct C abi (field oThis "brandedToken") txOptions) in
  call contract "stakeRequests" [stakeRequestHash].

Definition _getGCStakeRequestRawTx (this : gmap string jsval)
    (stakeRequestHash originWeb3 txOptions : jsval) : M jsval :=
  let oThis := this in
  let web3 := js_or originWeb3 (field oThis "web3") in
  let! abi := lift (provider_getABI (field oThis "abiBinProvider") gatewayComposerContractName) in
  let! C := lift (eth_Contract web3) in
  let! contract := lift (construct C abi (field oThis "gatewayComposer") txOptions) in
  call contract "stakeRequests" [stakeRequestHash].

End WithEnv.
End Staker.

(** ** Vocabulary of the statements *)

(** Transaction options with a well-formed sender: a truthy value whose
    [from] property [Web3.utils.isAddress] accepts. *)
Definition valid_from (env : Env) (txOptions : jsval) : bool :=
  ToBoolean txOptions
  && match get_prop txOptions "from" with
     | Ok from => isAddress env from
     | _ => false
     end.

(** A validation error: the promise is rejected with (or the function
    throws) a [TypeError], and since the events [before] nothing but log
    lines happened: no read and no submission. *)
Definition validation_error {A} (before : list event)
    (outcome : result A * list event) : Prop :=
  exists message logged,
    (outcome.1 = Rejected (TypeError message)
     \/ outcome.1 = Thrown (TypeError message))
    /\ outcome.2 = before ++ logged
    /\ forallb (fun e => negb (is_network e)) logged = true.

Definition tx_contract (t : tx) : contract :=
  match t with
  | MethodCall c _ _ | Deployment c _ _ => c
  end.

(** The events that submit a call of the method [name]. *)
Definition submits (name : string) (e : event) : bool :=
  match e with
  | Submit (MethodCall _ m _) _ => String.eqb m name
  | _ => false
  end.

(** The submissions and the reads among the events. *)
Definition is_submit (e : event) : bool :=
  match e with
  | Submit _ _ => true
  | _ => false
  end.

Definition is_read (e : event) : bool :=
  match e with
  | Read _ _ _ => true
  | _ => false
  end.

(** How many of the events satisfy [f]. *)
Definition count (f : event -> bool) (events : list event) : nat :=
  length (List.filter f events).

(** Nothing among the events touches the chain. *)
Definition off_chain (events : list event) : bool :=
  forallb (fun e => negb (is_network e)) events.

(** A recording double of the collaborators, to run the code on concrete
    inputs: addresses are the strings of 42 characters, the registry knows
    the contract on every connection, a read answers ["35"] and a submission
    answers a receipt. *)
Module Double.

Definition addr1 : jsval := JStr "0x0000000000000000000000000000000000000001".
Definition addr2 : jsval := JStr "0x0000000000000000000000000000000000000002".
Definition abi : jsval := JArr [JStr "abi"].

Definition env : Env := {|
  isAddress := fun v =>
    match v with JStr s => Nat.eqb (String.length s) 42 | _ => false end;
  getBrandedToken := fun web3 address =>
    match web3 with
    | JWeb3 c => Some (Contract c abi address JUndefined)
    | _ => None
    end;
  getBIN := fun _ => JStr "0x60";
  getABI := fun _ => abi;
  call_reply := fun _ _ _ _ => inl (JStr "35");
  send_reply := fun _ _ _ => inl (JObj {[ "contractAddress" := addr2 ]})
|}.

Definition from1 : jsval := JObj {[ "from" := addr1 ]}.
Definition token : BrandedToken.instance :=
  BrandedToken.Instance (JWeb3 0) addr2 (Contract 0 abi addr2 JUndefined).
Definition staker : gmap string jsval :=
  Staker.constructor (JWeb3 0) addr1 addr2 addr1 from1.

End Double.

(** ** Basic facts *)

Section Comparison.

(** Both comparisons of the source read the same IsLessThan answer. *)
Lemma js_le_not_gt x y : js_le x y = true -> js_gt x y = false.
Proof.
  unfold js_le, js_gt. destruct (num_lt y x) as [b|]; [|done].
  by destruct b.
Qed.

Lemma js_gt_not_le x y : js_gt x y = true -> js_le x y = false.
Proof.
  unfold js_le, js_gt. destruct (num_lt y x) as [b|]; [|done].
  by intros ->.
Qed.

Lemma js_gt_spec p q : js_gt (Fin p) (Fin q) = true <-> (q < p)%Q.
Proof.
  unfold js_gt; simpl. rewrite negb_true_iff, <- not_true_iff_false.
  rewrite Qle_bool_iff. split; [apply Qnot_le_lt | apply Qlt_not_le].
Qed.

Lemma js_le_spec p q : js_le (Fin p) (Fin q) = true <-> (p <= q)%Q.
Proof.
  unfold js_le; simpl. rewrite negb_involutive. apply Qle_bool_iff.
Qed.

End Comparison.

Section Values.

(** A falsy value has no own enumerable property, so [Object.assign] behind
    the guard [if (txOptions)] and without it copy the same properties. *)
Lemma own_enumerable_falsy v : ToBoolean v = false -> own_enumerable v = ∅.
Proof.
  destruct v as [| |b|n|s|items|props|c| |fields]; simpl; try done.
  destruct s; [done | discriminate].
Qed.

(** Reading a property of a truthy value does not throw. *)
Lemma get_prop_truthy v k :
  ToBoolean v = true -> exists x, get_prop v k = Ok x.
Proof.
  destruct v as [| |b|n|s|items|props|c| |fields]; simpl; try done; eauto;
    destruct (String.eqb k "length"); eauto.
Qed.

Lemma valid_from_inv env txOptions :
  valid_from env txOptions = true ->
  ToBoolean txOptions = true
  /\ exists from, get_prop txOptions "from" = Ok from /\ isAddress env from = true.
Proof.
  unfold valid_from. intros [Ht Hf]%andb_true_iff. split; [done|].
  destruct (get_prop txOptions "from") as [from| |]; [eauto | done | done].
Qed.

End Values.

Section Monad.
Context {A B : Type}.

Lemma bind_ret (a : A) (k : A -> M B) t : bind (ret a) k t = k a t.
Proof. reflexivity. Qed.

Lemma bind_lift_ok (a : A) (k : A -> M B) t : bind (lift (Ok a)) k t = k a t.
Proof. reflexivity. Qed.

Lemma bind_emit e (k : unit -> M B) t : bind (emit e) k t = k tt (t ++ [e]).
Proof. reflexivity. Qed.

End Monad.

(** Evaluate the monad's operations at the head of the goal. *)
Ltac js_step :=
  unfold async, bind, ret, lift, emit, throw, reject,
    BrandedToken.logger_error; simpl.

(** ** BrandedToken: the stake request *)

(** C1. For every stake amount and all transaction options with a
    well-formed [from], [requestStake] first reads [convertToBrandedTokens]
    with exactly the stake amount; when the read answers, the one transaction
    it submits is the two-argument call [requestStake(stakeAmount, mintAmount)]
    whose second argument is the answer of that read, and when the read fails
    nothing is submitted. *)
Theorem requestStake_mint_amount_is_read
    env this stakeAmount txOptions before :
  valid_from env txOptions = true ->
  let contract := BrandedToken.contract_ this in
  let read := Read contract "convertToBrandedTokens" [stakeAmount] in
  BrandedToken.requestStake env this stakeAmount txOptions before =
    match call_reply env before contract "convertToBrandedTokens" [stakeAmount] with
    | inl mintAmount =>
        let call := MethodCall contract "requestStake" [stakeAmount; mintAmount] in
        (match send_reply env (before ++ [read]) call txOptions with
         | inl receipt => Ok receipt
         | inr reason => Rejected (Remote reason)
         end,
         before ++ [read; Submit call txOptions])
    | inr reason => (Rejected (Remote reason), before ++ [read])
    end.
Proof.
  intros [Htruthy (from & Hfrom & Haddr)]%valid_from_inv contract read.
  unfold BrandedToken.requestStake.
  rewrite Htruthy, Hfrom. js_step. rewrite Haddr. simpl.
  unfold BrandedToken.convertToBrandedTokens, BrandedToken.call.
  fold contract. fold read.
  destruct (call_reply env before contract _ _) as [mintAmount|reason]; [|done].
  unfold BrandedToken.requestStakeRawTx, BrandedToken.sendTransaction. simpl.
  fold contract. rewrite <- app_assoc. simpl.
  by destruct (send_reply env _ _ _).
Qed.

Lemma requestStake_mint_amount_is_read_witness :
  valid_from Double.env Double.from1 = true
  /\ run (BrandedToken.requestStake Double.env Double.token (JStr "100") Double.from1)
     = (Ok (JObj {[ "contractAddress" := Double.addr2 ]}),
        [Read (BrandedToken.contract_ Double.token) "convertToBrandedTokens" [JStr "100"];
         Submit (MethodCall (BrandedToken.contract_ Double.token) "requestStake"
                   [JStr "100"; JStr "35"]) Double.from1]).
Proof.
  split; [reflexivity|].
  unfold run.
  rewrite (requestStake_mint_amount_is_read Double.env Double.token (JStr "100")
             Double.from1 []); reflexivity.
Defined.

(** ** BrandedToken: deployment *)

(** C2. With a connection, well-formed value-token and organization
    addresses and a well-formed [from]: whenever [conversionRate <= 0] or
    [conversionRateDecimals > 5], [deployRawTx] throws and [deploy] rejects
    with a [TypeError] after logging it, and nothing was read or submitted;
    whenever [conversionRate > 0] and [conversionRateDecimals <= 5] the two
    checks pass and [deployRawTx] goes on to build the deployment. *)
Theorem deploy_checks_conversion_parameters
    env web3 valueToken symbol name decimals conversionRate
    conversionRateDecimals organization txOptions before :
  instanceof_Web3 web3 = true ->
  isAddress env valueToken = true ->
  isAddress env organization = true ->
  valid_from env txOptions = true ->
  (js_le conversionRate (Fin 0) = true
   \/ js_gt conversionRateDecimals (Fin 5) = true ->
   exists message,
     BrandedToken.deployRawTx env web3 valueToken symbol name decimals
       conversionRate conversionRateDecimals organization before
     = (Thrown (TypeError message), before ++ [Log message])
     /\ BrandedToken.deploy env web3 valueToken symbol name decimals
          conversionRate conversionRateDecimals organization txOptions before
        = (Rejected (TypeError message), before ++ [Log message]))
  /\ (js_gt conversionRate (Fin 0) = true ->
      js_le conversionRateDecimals (Fin 5) = true ->
      BrandedToken.deployRawTx env web3 valueToken symbol name decimals
        conversionRate conversionRateDecimals organization before
      = (match getBrandedToken env web3 JUndefined with
         | Some contract =>
             Ok (Deployment contract (getBIN env BrandedToken.ContractName)
                   [valueToken; symbol; name; decimals; JNum conversionRate;
                    JNum conversionRateDecimals; organization])
         | None => Thrown (TypeError [Lit "contract.deploy is not a function"])
         end, before)).
Proof.
  intros Hweb3 Hvalue Horg [Htruthy (from & Hfrom & Haddr)]%valid_from_inv.
  split.
  - intros Hbad.
    assert (exists message,
      BrandedToken.deployRawTx env web3 valueToken symbol name decimals
        conversionRate conversionRateDecimals organization before
      = (Thrown (TypeError message), before ++ [Log message])) as [message Hraw].
    { unfold BrandedToken.deployRawTx. rewrite Hweb3, Hvalue, Horg. simpl.
      destruct (js_gt conversionRate (Fin 0)) eqn:Hrate; simpl; [|by eexists].
      destruct Hbad as [Hle | Hgt].
      - apply js_le_not_gt in Hle. congruence.
      - rewrite (js_gt_not_le _ _ Hgt). simpl. by eexists. }
    exists message. split; [done|].
    unfold BrandedToken.deploy. rewrite Htruthy, Hfrom. js_step.
    rewrite Haddr. simpl. by rewrite Hraw.
  - intros Hrate Hdec.
    unfold BrandedToken.deployRawTx.
    rewrite Hweb3, Hvalue, Horg, Hrate, Hdec. simpl.
    by destruct (getBrandedToken env web3 JUndefined).
Qed.

Lemma deploy_checks_conversion_parameters_witness :
  (exists message,
     run (BrandedToken.deploy Double.env (JWeb3 0) Double.addr1 (JStr "BT")
            (JStr "Branded") (num 18) (Fin 0) (Fin 1) Double.addr2 Double.from1)
     = (Rejected (TypeError message), [Log message]))
  /\ (exists message,
     run (BrandedToken.deploy Double.env (JWeb3 0) Double.addr1 (JStr "BT")
            (JStr "Branded") (num 18) (Fin 35) (Fin 6) Double.addr2 Double.from1)
     = (Rejected (TypeError message), [Log message]))
  /\ exists t,
     run (BrandedToken.deployRawTx Double.env (JWeb3 0) Double.addr1 (JStr "BT")
            (JStr "Branded") (num 18) (Fin 35) (Fin 1) Double.addr2)
     = (Ok t, []).
Proof.
  split; [|split].
  - destruct (deploy_checks_conversion_parameters Double.env (JWeb3 0)
                Double.addr1 (JStr "BT") (JStr "Branded") (num 18) (Fin 0) (Fin 1)
                Double.addr2 Double.from1 []) as [Hbad _]; try reflexivity.
    destruct Hbad as (message & _ & Hdeploy); [left; reflexivity|].
    exists message. exact Hdeploy.
  - destruct (deploy_checks_conversion_parameters Double.env (JWeb3 0)
                Double.addr1 (JStr "BT") (JStr "Branded") (num 18) (Fin 35) (Fin 6)
                Double.addr2 Double.from1 []) as [Hbad _]; try reflexivity.
    destruct Hbad as (message & _ & Hdeploy); [right; reflexivity|].
    exists message. exact Hdeploy.
  - destruct (deploy_checks_conversion_parameters Double.env (JWeb3 0)
                Double.addr1 (JStr "BT") (JStr "Branded") (num 18) (Fin 35) (Fin 1)
                Double.addr2 Double.from1 []) as [_ Hgood]; try reflexivity.
    eexists. apply Hgood; reflexivity.
Defined.

(** ** BrandedToken: accepting and rejecting a stake request *)

Section Requests.
Variable env : Env.
Variable this : BrandedToken.instance.

Lemma logged_rejection_is_validation_error {A} before message :
  validation_error (A:=A) before (Rejected (TypeError message), before ++ [Log message]).
Proof. exists message, [Log message]. simpl. auto. Qed.

Lemma silent_rejection_is_validation_error {A} before message :
  validation_error (A:=A) before (Rejected (TypeError message), before).
Proof. exists message, []. simpl. rewrite app_nil_r. auto. Qed.

Lemma acceptStakeRequestRawTx_falsy stakeRequestHash r s v before :
  ToBoolean stakeRequestHash = false \/ ToBoolean r = false
  \/ ToBoolean s = false \/ ToBoolean v = false ->
  exists message,
    BrandedToken.acceptStakeRequestRawTx this stakeRequestHash r s v before
    = (Rejected (TypeError message), before ++ [Log message]).
Proof.
  intros Hfalsy. unfold BrandedToken.acceptStakeRequestRawTx.
  destruct (ToBoolean stakeRequestHash); simpl; [|by eexists].
  destruct (ToBoolean r); simpl; [|by eexists].
  destruct (ToBoolean s); simpl; [|by eexists].
  destruct (ToBoolean v); simpl; [|by eexists].
  by destruct Hfalsy as [?|[?|[?|?]]].
Qed.

Lemma rejectStakeRequestRawTx_falsy stakeRequestHash before :
  ToBoolean stakeRequestHash = false ->
  BrandedToken.rejectStakeRequestRawTx this stakeRequestHash before
  = (Rejected (TypeError [Lit "Invalid stakeRequestHash: "; Sub stakeRequestHash; Lit "."]),
     before ++ [Log [Lit "Invalid stakeRequestHash: "; Sub stakeRequestHash; Lit "."]]).
Proof.
  intros Hfalsy. unfold BrandedToken.rejectStakeRequestRawTx.
  by rewrite Hfalsy.
Qed.

(** The two submitting forms stop at the options when these have no
    well-formed [from]. *)
Lemma acceptStakeRequest_invalid_from stakeRequestHash r s v txOptions before :
  valid_from env txOptions = false ->
  validation_error before
    (BrandedToken.acceptStakeRequest env this stakeRequestHash r s v txOptions before).
Proof.
  unfold valid_from, BrandedToken.acceptStakeRequest. intros Hinvalid.
  destruct (ToBoolean txOptions) eqn:Htruthy; simpl in *;
    [|apply logged_rejection_is_validation_error].
  destruct (get_prop_truthy txOptions "from" Htruthy) as [from Hfrom].
  rewrite Hfrom in *. js_step. rewrite Hinvalid. simpl.
  apply logged_rejection_is_validation_error.
Qed.

Lemma rejectStakeRequest_invalid_from stakeRequestHash txOptions before :
  valid_from env txOptions = false ->
  validation_error before
    (BrandedToken.rejectStakeRequest env this stakeRequestHash txOptions before).
Proof.
  unfold valid_from, BrandedToken.rejectStakeRequest. intros Hinvalid.
  destruct (ToBoolean txOptions) eqn:Htruthy; simpl in *;
    [|apply logged_rejection_is_validation_error].
  destruct (get_prop_truthy txOptions "from" Htruthy) as [from Hfrom].
  rewrite Hfrom in *. js_step. rewrite Hinvalid. simpl.
  apply silent_rejection_is_validation_error.
Qed.

End Requests.

(** C4. Whenever at least one of [stakeRequestHash], [r], [s], [v] is falsy,
    [acceptStakeRequestRawTx] rejects with a [TypeError] it logged, and
    [acceptStakeRequest] rejects with a validation error without a read or a
    submission, whatever the other arguments and the options are; likewise
    [rejectStakeRequestRawTx] and [rejectStakeRequest] whenever
    [stakeRequestHash] is falsy.  Both submitting forms reject in the same
    way when the options have no well-formed [from]. *)
Theorem stake_request_fields_required
    env this stakeRequestHash r s v txOptions before :
  (ToBoolean stakeRequestHash = false \/ ToBoolean r = false
   \/ ToBoolean s = false \/ ToBoolean v = false ->
   (exists message,
      BrandedToken.acceptStakeRequestRawTx this stakeRequestHash r s v before
      = (Rejected (TypeError message), before ++ [Log message]))
   /\ validation_error before
        (BrandedToken.acceptStakeRequest env this stakeRequestHash r s v
           txOptions before))
  /\ (ToBoolean stakeRequestHash = false ->
      (exists message,
         BrandedToken.rejectStakeRequestRawTx this stakeRequestHash before
         = (Rejected (TypeError message), before ++ [Log message]))
      /\ validation_error before
           (BrandedToken.rejectStakeRequest env this stakeRequestHash txOptions
              before))
  /\ (valid_from env txOptions = false ->
      validation_error before
        (BrandedToken.acceptStakeRequest env this stakeRequestHash r s v
           txOptions before)
      /\ validation_error before
           (BrandedToken.rejectStakeRequest env this stakeRequestHash txOptions
              before)).
Proof.
  split; [|split].
  - intros Hfalsy.
    destruct (acceptStakeRequestRawTx_falsy this _ _ _ _ before Hfalsy)
      as [message Hraw].
    split; [by exists message|].
    destruct (valid_from env txOptions) eqn:Hvalid;
      [|by apply acceptStakeRequest_invalid_from].
    apply valid_from_inv in Hvalid as [Htruthy (from & Hfrom & Haddr)].
    unfold BrandedToken.acceptStakeRequest.
    rewrite Htruthy, Hfrom. js_step. rewrite Haddr. simpl. rewrite Hraw.
    apply logged_rejection_is_validation_error.
  - intros Hfalsy.
    pose proof (rejectStakeRequestRawTx_falsy this _ before Hfalsy) as Hraw.
    split; [by eexists|].
    destruct (valid_from env txOptions) eqn:Hvalid;
      [|by apply rejectStakeRequest_invalid_from].
    apply valid_from_inv in Hvalid as [Htruthy (from & Hfrom & Haddr)].
    unfold BrandedToken.rejectStakeRequest.
    rewrite Htruthy, Hfrom. js_step. rewrite Haddr. simpl. rewrite Hraw.
    apply logged_rejection_is_validation_error.
  - intros Hinvalid. split.
    + by apply acceptStakeRequest_invalid_from.
    + by apply rejectStakeRequest_invalid_from.
Qed.

Lemma stake_request_fields_required_witness :
  validation_error []
    (run (BrandedToken.acceptStakeRequest Double.env Double.token
            (JStr "0xhash") (JStr "0xr") (JStr "") (num 27) Double.from1))
  /\ validation_error []
       (run (BrandedToken.rejectStakeRequest Double.env Double.token
               (num 0) Double.from1))
  /\ validation_error []
       (run (BrandedToken.acceptStakeRequest Double.env Double.token
               (JStr "0xhash") (JStr "0xr") (JStr "0xs") (num 27) (JObj ∅))).
Proof.
  split; [|split].
  - destruct (stake_request_fields_required Double.env Double.token
                (JStr "0xhash") (JStr "0xr") (JStr "") (num 27) Double.from1 [])
      as (Haccept & _ & _).
    apply Haccept. right; right; left; reflexivity.
  - destruct (stake_request_fields_required Double.env Double.token
                (num 0) JNull JNull JNull Double.from1 [])
      as (_ & Hreject & _).
    apply Hreject. reflexivity.
  - destruct (stake_request_fields_required Double.env Double.token
                (JStr "0xhash") (JStr "0xr") (JStr "0xs") (num 27) (JObj ∅) [])
      as (_ & _ & Hfrom).
    apply Hfrom. reflexivity.
Defined.

(** ** BrandedToken: lifting restrictions *)

(** C5. [liftRestriction] with an empty list, or with a missing (falsy)
    list, rejects with a validation error: the raw form with the [TypeError]
    it logged, the submitting form without a read or a submission whatever
    the options are.  With the one-element list [[addr]] the raw form builds
    the call of [liftRestriction] whose argument list is exactly [[[addr]]],
    and with a well-formed [from] the submitting form submits that call. *)
Theorem liftRestriction_address_list env this addresses addr txOptions before :
  (addresses = JArr [] \/ ToBoolean addresses = false ->
   (exists message,
      BrandedToken.liftRestrictionRawTx this addresses before
      = (Rejected (TypeError message), before ++ [Log message]))
   /\ validation_error before
        (BrandedToken.liftRestriction env this addresses txOptions before))
  /\ BrandedToken.liftRestrictionRawTx this (JArr [addr]) before
     = (Ok (MethodCall (BrandedToken.contract_ this) "liftRestriction" [JArr [addr]]),
        before)
  /\ (valid_from env txOptions = true ->
      exists outcome,
        BrandedToken.liftRestriction env this (JArr [addr]) txOptions before
        = (outcome,
           before ++ [Submit (MethodCall (BrandedToken.contract_ this)
                                "liftRestriction" [JArr [addr]]) txOptions])).
Proof.
  split; [|split].
  - intros Hempty.
    assert (exists message,
      BrandedToken.liftRestrictionRawTx this addresses before
      = (Rejected (TypeError message), before ++ [Log message])) as [message Hraw].
    { unfold BrandedToken.liftRestrictionRawTx.
      destruct Hempty as [-> | ->]; simpl; by eexists. }
    split; [by exists message|].
    unfold BrandedToken.liftRestriction.
    destruct (ToBoolean txOptions) eqn:Htruthy; simpl;
      [|apply logged_rejection_is_validation_error].
    destruct (get_prop_truthy txOptions "from" Htruthy) as [from Hfrom].
    rewrite Hfrom. js_step.
    destruct (isAddress env from); simpl;
      [|apply logged_rejection_is_validation_error].
    rewrite Hraw. apply logged_rejection_is_validation_error.
  - reflexivity.
  - intros [Htruthy (from & Hfrom & Haddr)]%valid_from_inv.
    unfold BrandedToken.liftRestriction.
    rewrite Htruthy, Hfrom. js_step. rewrite Haddr. simpl.
    unfold BrandedToken.sendTransaction.
    destruct (send_reply env _ _ _); by eexists.
Qed.

Lemma liftRestriction_address_list_witness :
  validation_error []
    (run (BrandedToken.liftRestriction Double.env Double.token (JArr [])
            Double.from1))
  /\ validation_error []
       (run (BrandedToken.liftRestriction Double.env Double.token JUndefined
               Double.from1))
  /\ exists outcome,
       run (BrandedToken.liftRestriction Double.env Double.token
              (JArr [Double.addr1]) Double.from1)
       = (outcome,
          [Submit (MethodCall (BrandedToken.contract_ Double.token)
                     "liftRestriction" [JArr [Double.addr1]]) Double.from1]).
Proof.
  split; [|split].
  - destruct (liftRestriction_address_list Double.env Double.token (JArr [])
                Double.addr1 Double.from1 []) as (Hempty & _ & _).
    apply Hempty. left; reflexivity.
  - destruct (liftRestriction_address_list Double.env Double.token JUndefined
                Double.addr1 Double.from1 []) as (Hempty & _ & _).
    apply Hempty. right; reflexivity.
  - destruct (liftRestriction_address_list Double.env Double.token JNull
                Double.addr1 Double.from1 []) as (_ & _ & Hone).
    apply Hone. reflexivity.
Defined.

(** ** BrandedToken: construction *)

(** C7. The constructor throws a [TypeError], after logging it and before
    anything else happens, whenever the connection is not a [Web3] instance,
    the address is not well-formed, or the registry gives no contract for
    them; with a [Web3] instance, a well-formed address and a contract from
    the registry it returns the instance that stores the connection, the
    address and the contract handle. *)
Theorem constructor_fails_fast env web3 address before :
  (instanceof_Web3 web3 = false \/ isAddress env address = false
   \/ getBrandedToken env web3 address = None ->
   exists message,
     BrandedToken.constructor env web3 address before
     = (Thrown (TypeError message), before ++ [Log message]))
  /\ (forall contract,
      instanceof_Web3 web3 = true ->
      isAddress env address = true ->
      getBrandedToken env web3 address = Some contract ->
      BrandedToken.constructor env web3 address before
      = (Ok (BrandedToken.Instance web3 address contract), before)).
Proof.
  unfold BrandedToken.constructor. split.
  - intros Hinvalid.
    destruct (instanceof_Web3 web3); simpl; [|by eexists].
    destruct (isAddress env address); simpl; [|by eexists].
    destruct (getBrandedToken env web3 address); simpl; [|by eexists].
    by destruct Hinvalid as [?|[?|?]].
  - by intros contract -> -> ->.
Qed.

Lemma constructor_fails_fast_witness :
  (exists message,
     run (BrandedToken.constructor Double.env (JStr "http://localhost:8545")
            Double.addr1)
     = (Thrown (TypeError message), [Log message]))
  /\ (exists message,
     run (BrandedToken.constructor Double.env (JWeb3 0) (JStr "0x123"))
     = (Thrown (TypeError message), [Log message]))
  /\ run (BrandedToken.constructor Double.env (JWeb3 0) Double.addr2)
     = (Ok Double.token, []).
Proof.
  split; [|split].
  - destruct (constructor_fails_fast Double.env (JStr "http://localhost:8545")
                Double.addr1 []) as [Hfail _].
    apply Hfail. left; reflexivity.
  - destruct (constructor_fails_fast Double.env (JWeb3 0) (JStr "0x123") [])
      as [Hfail _].
    apply Hfail. right; left; reflexivity.
  - destruct (constructor_fails_fast Double.env (JWeb3 0) Double.addr2 [])
      as [_ Hok].
    apply Hok; reflexivity.
Defined.

(** ** BrandedToken: raw forms with and without validation *)

(** C10. [requestStakeRawTx] validates nothing: for every stake amount and
    mint amount, the falsy ones included, it resolves to the call
    [requestStake(stakeAmount, mintAmount)] and neither logs nor rejects;
    [redeemRawTx] rejects every falsy amount with a [TypeError]. *)
Theorem requestStakeRawTx_never_rejects this stakeAmount mintAmount before :
  BrandedToken.requestStakeRawTx this stakeAmount mintAmount before
  = (Ok (MethodCall (BrandedToken.contract_ this) "requestStake"
           [stakeAmount; mintAmount]), before)
  /\ forall amount,
       ToBoolean amount = false ->
       BrandedToken.redeemRawTx this amount before
       = (Rejected (TypeError [Lit "Invalid redeemAmount: "; Sub amount; Lit "."]),
          before).
Proof.
  split; [reflexivity|].
  intros amount Hfalsy. unfold BrandedToken.redeemRawTx. by rewrite Hfalsy.
Qed.

Lemma requestStakeRawTx_never_rejects_witness :
  run (BrandedToken.requestStakeRawTx Double.token (num 0) JUndefined)
  = (Ok (MethodCall (BrandedToken.contract_ Double.token) "requestStake"
           [num 0; JUndefined]), [])
  /\ run (BrandedToken.redeemRawTx Double.token (JStr ""))
     = (Rejected (TypeError [Lit "Invalid redeemAmount: "; Sub (JStr ""); Lit "."]),
        []).
Proof.
  destruct (requestStakeRawTx_never_rejects Double.token (num 0) JUndefined [])
    as [Hraw Hredeem].
  split; [exact Hraw|].
  apply Hredeem. reflexivity.
Defined.

(** ** Staker: the options of the composer call *)

Section ComposerOptions.
Variable env : Env.
Variable this : gmap string jsval.
Variables owner txOptions : jsval.

(** The options of the source, [{from: owner, to: oThis.gatewayComposer,
    gas: '8000000'}]. *)
Local Abbreviation defaults :=
  ({[ "from" := owner;
      "to" := Staker.field this "gatewayComposer";
      "gas" := JStr "8000000" ]} : gmap string jsval).

(** With or without the guard [if (txOptions)], the options are the
    properties of the caller's options over the defaults. *)
Lemma guarded_assign :
  (if ToBoolean txOptions then Object_assign defaults txOptions else defaults)
  = own_enumerable txOptions ∪ defaults.
Proof.
  destruct (ToBoolean txOptions) eqn:Htruthy; [done|].
  rewrite (own_enumerable_falsy _ Htruthy). by rewrite (left_id_L ∅ (∪)).
Qed.

Lemma merged_gas_default :
  own_enumerable txOptions !! "gas" = None ->
  (own_enumerable txOptions ∪ defaults) !! "gas" = Some (JStr "8000000").
Proof.
  intros Hnone. rewrite lookup_union_r by done.
  by simplify_map_eq.
Qed.

Lemma merged_gas_caller gas :
  own_enumerable txOptions !! "gas" = Some gas ->
  (own_enumerable txOptions ∪ defaults) !! "gas" = Some gas.
Proof. intros Hsome. by apply lookup_union_Some_l. Qed.

End ComposerOptions.

(** C6. Whenever the composer call is built (the connection in use is a
    [Web3] instance and the instance holds its provider), its options are the
    caller's [txOptions] merged over the defaults [{from: owner, to:
    gatewayComposer, gas: '8000000'}]: [_requestStakeRawTx] returns the call
    of [requestStake] on a composer contract bound to these options,
    [requestStake] submits that call, and the [gas] of these options is
    ['8000000'] when the caller's options have no [gas] and the caller's
    value when they have one. *)
Theorem requestStake_options_merged_over_defaults
    env this owner stakeVTAmountInWei mintBTAmountInWei gatewayAddress
    beneficiary gasPrice gasLimit nonce originWeb3 txOptions c before :
  js_or originWeb3 (Staker.field this "originWeb3") = JWeb3 c ->
  Staker.field this "abiBinProvider" = JAbiBinProvider ->
  let merged : gmap string jsval :=
    own_enumerable txOptions
    ∪ {[ "from" := owner;
         "to" := Staker.field this "gatewayComposer";
         "gas" := JStr "8000000" ]} in
  let composer :=
    Contract c (getABI env Staker.gatewayComposerContractName)
      (Staker.field this "gatewayComposer") (JObj merged) in
  let call :=
    MethodCall composer "requestStake"
      [stakeVTAmountInWei; mintBTAmountInWei; gatewayAddress; beneficiary;
       gasPrice; gasLimit; nonce] in
  let built := Console "Constructed txObject for GatewayComposer.requestStake." in
  Staker._requestStakeRawTx env this owner stakeVTAmountInWei mintBTAmountInWei
    gatewayAddress beneficiary gasPrice gasLimit nonce originWeb3 txOptions before
  = (Ok call, before ++ [built])
  /\ Staker.requestStake env this owner stakeVTAmountInWei mintBTAmountInWei
       gatewayAddress gasPrice gasLimit beneficiary nonce originWeb3 txOptions
       before
     = match send_reply env (before ++ [built]) call txOptions with
       | inl receipt =>
           (Ok receipt, before ++ [built; Submit call txOptions])
       | inr reason =>
           (Rejected (Remote reason),
            before ++ [built; Submit call txOptions; Console "!! Error !!"])
       end
  /\ (own_enumerable txOptions !! "gas" = None ->
      merged !! "gas" = Some (JStr "8000000"))
  /\ (forall gas,
      own_enumerable txOptions !! "gas" = Some gas ->
      merged !! "gas" = Some gas).
Proof.
  intros Hweb3 Hprovider merged composer call built.
  assert (Staker._requestStakeRawTx env this owner stakeVTAmountInWei
            mintBTAmountInWei gatewayAddress beneficiary gasPrice gasLimit nonce
            originWeb3 txOptions before
          = (Ok call, before ++ [built])) as Hraw.
  { unfold Staker._requestStakeRawTx.
    rewrite Hweb3, Hprovider, guarded_assign. reflexivity. }
  split; [exact Hraw|]. split; [|split].
  - unfold Staker.requestStake, bind. rewrite Hraw.
    unfold Staker.send.
    destruct (send_reply env _ _ _); by rewrite <- app_assoc.
  - apply merged_gas_default.
  - apply merged_gas_caller.
Qed.

Lemma requestStake_options_merged_over_defaults_witness :
  (exists options composer args,
     (run (Staker._requestStakeRawTx Double.env Double.staker Double.addr1
             (JStr "100") (JStr "35") Double.addr2 Double.addr1 (JStr "1")
             (JStr "2") (JStr "1") JUndefined JUndefined)).1
     = Ok (MethodCall composer "requestStake" args)
     /\ c_options composer = JObj options
     /\ options !! "gas" = Some (JStr "8000000"))
  /\ (exists options composer args,
     (run (Staker._requestStakeRawTx Double.env Double.staker Double.addr1
             (JStr "100") (JStr "35") Double.addr2 Double.addr1 (JStr "1")
             (JStr "2") (JStr "1") JUndefined
             (JObj {[ "gas" := JStr "21000" ]}))).1
     = Ok (MethodCall composer "requestStake" args)
     /\ c_options composer = JObj options
     /\ options !! "gas" = Some (JStr "21000")).
Proof.
  split.
  - destruct (requestStake_options_merged_over_defaults Double.env Double.staker
                Double.addr1 (JStr "100") (JStr "35") Double.addr2 Double.addr1
                (JStr "1") (JStr "2") (JStr "1") JUndefined JUndefined 0 [])
      as (Hraw & _ & Hdefault & _); [reflexivity | reflexivity |].
    unfold run. rewrite Hraw. do 3 eexists.
    split; [reflexivity|]. split; [reflexivity|].
    apply Hdefault. reflexivity.
  - destruct (requestStake_options_merged_over_defaults Double.env Double.staker
                Double.addr1 (JStr "100") (JStr "35") Double.addr2 Double.addr1
                (JStr "1") (JStr "2") (JStr "1") JUndefined
                (JObj {[ "gas" := JStr "21000" ]}) 0 [])
      as (Hraw & _ & _ & Hcaller); [reflexivity | reflexivity |].
    unfold run. rewrite Hraw. do 3 eexists.
    split; [reflexivity|]. split; [reflexivity|].
    apply Hcaller. reflexivity.
Defined.

(** ** Staker: the connection of the read-only lookups *)

Section Lookups.
Variables originWeb3 valueToken brandedToken gatewayComposer txOptions : jsval.

Local Abbreviation this :=
  (Staker.constructor originWeb3 valueToken brandedToken gatewayComposer txOptions).

(** The constructor stores the connection under [originWeb3] and assigns no
    property [web3]. *)
Lemma constructor_has_no_web3 : this !! "web3" = None.
Proof. reflexivity. Qed.

Lemma constructor_field_web3 : Staker.field this "web3" = JUndefined.
Proof. reflexivity. Qed.

Lemma constructor_field_originWeb3 : Staker.field this "originWeb3" = originWeb3.
Proof. reflexivity. Qed.

Lemma constructor_field_brandedToken :
  Staker.field this "brandedToken" = brandedToken.
Proof. reflexivity. Qed.

Lemma constructor_field_abiBinProvider :
  Staker.field this "abiBinProvider" = JAbiBinProvider.
Proof. reflexivity. Qed.

End Lookups.

(** C9. On an instance made by the constructor, which stores the connection
    under [originWeb3] and never assigns [web3]: whenever the [originWeb3]
    argument is omitted (falsy), each of [_getStakeRequestHashForStakerRawTx],
    [_getStakeRequestRawTx] and [_getGCStakeRequestRawTx] falls back to
    [oThis.web3], which is [undefined], and throws a [TypeError] without
    reading from the chain; [convertToBTToken] falls back to
    [oThis.originWeb3] and reads from the contract on the stored
    connection. *)
Theorem lookups_fall_back_to_unassigned_web3
    env storedWeb3 valueToken brandedToken gatewayComposer storedOptions
    key amount address originWeb3 txOptions before :
  let this :=
    Staker.constructor storedWeb3 valueToken brandedToken gatewayComposer
      storedOptions in
  let failure : result jsval * list event :=
    (Thrown (TypeError [Lit "Cannot read property '"; Lit "eth"; Lit "' of ";
                        Sub JUndefined]), before) in
  this !! "web3" = None
  /\ this !! "originWeb3" = Some storedWeb3
  /\ (ToBoolean originWeb3 = false ->
      Staker._getStakeRequestHashForStakerRawTx env this key originWeb3
        txOptions before = failure
      /\ Staker._getStakeRequestRawTx env this key originWeb3 txOptions before
         = failure
      /\ Staker._getGCStakeRequestRawTx env this key originWeb3 txOptions before
         = failure)
  /\ (ToBoolean originWeb3 = false ->
      forall c,
        storedWeb3 = JWeb3 c ->
        let contract :=
          Contract c (getABI env Staker.brandedTokenContractName)
            (js_or address brandedToken) txOptions in
        let said := Console "Getting Branded tokens equivalent to Value tokens" in
        Staker.convertToBTToken env this amount address originWeb3 txOptions
          before
        = (match call_reply env (before ++ [said]) contract
                   "convertToBrandedTokens" [amount] with
           | inl value => Ok value
           | inr reason => Rejected (Remote reason)
           end,
           before ++ [said; Read contract "convertToBrandedTokens" [amount]])).
Proof.
  intros this failure. split; [reflexivity|]. split; [reflexivity|]. split.
  - intros Hfalsy.
    unfold Staker._getStakeRequestHashForStakerRawTx,
      Staker._getStakeRequestRawTx, Staker._getGCStakeRequestRawTx.
    unfold this. rewrite constructor_field_web3, constructor_field_abiBinProvider.
    unfold js_or. rewrite Hfalsy. done.
  - intros Hfalsy c -> contract said.
    unfold Staker.convertToBTToken. unfold this.
    rewrite constructor_field_originWeb3, constructor_field_brandedToken,
      constructor_field_abiBinProvider.
    unfold js_or at 1. rewrite Hfalsy. fold contract. js_step. fold contract.
    fold said. unfold Staker.call.
    destruct (call_reply env _ _ _ _); by rewrite <- app_assoc.
Qed.

Lemma lookups_fall_back_to_unassigned_web3_witness :
  (exists message,
     run (Staker._getStakeRequestRawTx Double.env Double.staker (JStr "0xhash")
            JUndefined JUndefined)
     = (Thrown (TypeError message), []))
  /\ exists contract said,
       run (Staker.convertToBTToken Double.env Double.staker (JStr "100")
              JUndefined JUndefined JUndefined)
       = (Ok (JStr "35"),
          [said; Read contract "convertToBrandedTokens" [JStr "100"]])
       /\ c_conn contract = 0.
Proof.
  destruct (lookups_fall_back_to_unassigned_web3 Double.env (JWeb3 0)
              Double.addr1 Double.addr2 Double.addr1 Double.from1
              (JStr "0xhash") (JStr "100") JUndefined JUndefined JUndefined [])
    as (_ & _ & Hlookups & Hconvert).
  split.
  - destruct Hlookups as (_ & Hrequest & _); [reflexivity|].
    eexists. exact Hrequest.
  - specialize (Hconvert eq_refl 0 eq_refl).
    do 2 eexists. split; [exact Hconvert | reflexivity].
Defined.

(** ** Staker: the approval step and [stake] *)

Section Approval.
Variable env : Env.
Variable globals : gmap string jsval.

Lemma free_bound name v : globals !! name = Some v -> Staker.free globals name = Ok v.
Proof. unfold Staker.free. by intros ->. Qed.

Lemma free_unbound name :
  globals !! name = None -> Staker.free globals name = Thrown (ReferenceError name).
Proof. unfold Staker.free. by intros ->. Qed.

Lemma free_cases name :
  (exists v, Staker.free globals name = Ok v)
  \/ Staker.free globals name = Thrown (ReferenceError name).
Proof. unfold Staker.free. destruct (globals !! name); eauto. Qed.

Lemma eth_Contract_cases web3 :
  (exists C, Staker.eth_Contract web3 = Ok C)
  \/ exists e, Staker.eth_Contract web3 = Thrown e.
Proof.
  unfold Staker.eth_Contract.
  destruct web3; simpl; eauto;
    repeat match goal with
           | |- context [match ?x with _ => _ end] => destruct x; simpl; eauto
           end.
Qed.

Lemma receiver_cases o name :
  (exists fields, Staker.receiver o name = Ok fields)
  \/ exists e, Staker.receiver o name = Thrown e.
Proof.
  unfold Staker.receiver.
  destruct o; simpl; eauto;
    repeat match goal with
           | |- context [match ?x with _ => _ end] => destruct x; simpl; eauto
           end.
Qed.

(** The approval step only builds a call: it adds no event, and what it
    returns is the unsent call of [approve]. *)
Lemma approveForValueToken_cases this valueTokenAbi stakeAmountInWei t :
  (exists contract args,
     Staker.approveForValueToken globals this valueTokenAbi stakeAmountInWei t
     = (Ok (MethodCall contract "approve" args), t)
     /\ length valueTokenAbi <> 0)
  \/ exists e,
       Staker.approveForValueToken globals this valueTokenAbi stakeAmountInWei t
       = (Thrown e, t).
Proof.
  unfold Staker.approveForValueToken.
  destruct (free_cases "originWeb3") as [[originWeb3 ->] | ->]; js_step;
    [|by right; eexists].
  destruct (length valueTokenAbi) eqn:Hlength; simpl; [by right; eexists|].
  destruct (eth_Contract_cases (js_or originWeb3 (Staker.field this "originWeb3")))
    as [[C ->] | [e ->]]; simpl; [|by right; eexists].
  destruct (free_cases "txOptions") as [[txOptions ->] | ->]; simpl;
    [|by right; eexists].
  destruct C; simpl; [|by right; eexists].
  left. by do 2 eexists.
Qed.

(** With an empty ABI the approval step throws, whatever the scope. *)
Lemma approveForValueToken_empty this valueTokenAbi stakeAmountInWei t :
  length valueTokenAbi = 0 ->
  exists e,
    Staker.approveForValueToken globals this valueTokenAbi stakeAmountInWei t
    = (Thrown e, t).
Proof.
  intros Hempty.
  destruct (approveForValueToken_cases this valueTokenAbi stakeAmountInWei t)
    as [(contract & args & _ & Hlength) | Hthrown]; [done | exact Hthrown].
Qed.

Lemma _requestStakeRawTx_cases
    this owner stakeVT mintBT gateway beneficiary gasPrice gasLimit nonce
    originWeb3 txOptions t :
  (exists contract args,
     Staker._requestStakeRawTx env this owner stakeVT mintBT gateway beneficiary
       gasPrice gasLimit nonce originWeb3 txOptions t
     = (Ok (MethodCall contract "requestStake" args),
        t ++ [Console "Constructed txObject for GatewayComposer.requestStake."]))
  \/ exists e,
       Staker._requestStakeRawTx env this owner stakeVT mintBT gateway beneficiary
         gasPrice gasLimit nonce originWeb3 txOptions t
       = (Thrown e, t).
Proof.
  unfold Staker._requestStakeRawTx.
  destruct (Staker.provider_getABI env (Staker.field this "abiBinProvider")
              Staker.gatewayComposerContractName) as [abi|e|e] eqn:Habi.
  - js_step.
    destruct (eth_Contract_cases (js_or originWeb3 (Staker.field this "originWeb3")))
      as [[C ->] | [e ->]]; simpl; [|by right; eexists].
    destruct C; simpl; [|by right; eexists].
    left. by do 2 eexists.
  - exfalso. revert Habi. unfold Staker.provider_getABI.
    destruct (Staker.field this "abiBinProvider"); simpl; try done;
      repeat match goal with
             | |- context [match ?x with _ => _ end] => destruct x; simpl; try done
             end.
  - right. by eexists.
Qed.

(** What [requestStake] adds to the events: at most the console line, one
    submission of the composer's [requestStake], and the error line. *)
Lemma requestStake_events
    this owner stakeVT mintBT gateway gasPrice gasLimit beneficiary nonce
    originWeb3 txOptions t :
  exists outcome added,
    Staker.requestStake env this owner stakeVT mintBT gateway gasPrice gasLimit
      beneficiary nonce originWeb3 txOptions t
    = (outcome, t ++ added)
    /\ existsb (submits "approve") added = false.
Proof.
  unfold Staker.requestStake, bind.
  destruct (_requestStakeRawTx_cases this owner stakeVT mintBT gateway beneficiary
              gasPrice gasLimit nonce originWeb3 txOptions t)
    as [(contract & args & ->) | [e ->]].
  - unfold Staker.send.
    destruct (send_reply env _ _ _); do 2 eexists;
      (split; [by rewrite <- app_assoc | reflexivity]).
  - exists (Thrown e), []. by rewrite app_nil_r.
Qed.

(** In every scope, [stake] adds no submission of [approve]. *)
Lemma stake_events
    this valueTokenAbi owner stakeVT mintBT gateway gasPrice gasLimit
    beneficiary nonce t :
  exists outcome added,
    Staker.stake env globals this valueTokenAbi owner stakeVT mintBT gateway
      gasPrice gasLimit beneficiary nonce t
    = (outcome, t ++ added)
    /\ existsb (submits "approve") added = false.
Proof.
  assert (forall outcome : result unit,
            exists outcome' added,
              (outcome, t) = (outcome', t ++ added)
              /\ existsb (submits "approve") added = false) as Hsilent.
  { intros outcome. exists outcome, []. by rewrite app_nil_r. }
  unfold Staker.stake, async, bind at 1.
  destruct (free_cases "oThis") as [[oThis HoThis] | HoThis]; rewrite HoThis;
    simpl; [|apply Hsilent].
  unfold bind at 1.
  destruct (receiver_cases oThis "approveForValueToken") as [[approver ->] | [e ->]];
    simpl; [|apply Hsilent].
  unfold bind at 1.
  destruct (approveForValueToken_cases approver valueTokenAbi stakeVT t)
    as [(contract & args & -> & _) | [e ->]]; [|apply Hsilent].
  unfold bind at 1. simpl.
  unfold bind at 1.
  destruct (receiver_cases oThis "requestStake") as [[requester ->] | [e ->]];
    simpl; [|apply Hsilent].
  unfold bind at 1.
  destruct (get_prop oThis "originWeb3") as [originWeb3|e|e]; simpl;
    [|apply Hsilent..].
  unfold bind at 1.
  destruct (get_prop oThis "txOptions") as [txOptions|e|e]; simpl;
    [|apply Hsilent..].
  unfold bind at 1.
  destruct (requestStake_events requester owner stakeVT mintBT gateway gasPrice
              gasLimit beneficiary nonce originWeb3 txOptions t)
    as (outcome & added & -> & Hadded).
  destruct outcome; simpl; eauto.
Qed.

End Approval.

(** C8. When [valueTokenAbi] is empty, [stake] fails: in every scope the
    promise is rejected and no event was added, because the approval step
    throws before a contract handle or a call is built; where the scope binds
    [originWeb3] the error is the one of the check, ['Value token abi is not
    provided']. *)
Theorem stake_fails_on_empty_abi
    env globals this valueTokenAbi owner stakeVTAmountInWei mintBTAmountInWei
    gatewayAddress gasPrice gasLimit beneficiary stakerGatewayNonce before :
  length valueTokenAbi = 0 ->
  (exists e,
     Staker.stake env globals this valueTokenAbi owner stakeVTAmountInWei
       mintBTAmountInWei gatewayAddress gasPrice gasLimit beneficiary
       stakerGatewayNonce before
     = (Rejected e, before))
  /\ (forall approver,
      exists e,
        Staker.approveForValueToken globals approver valueTokenAbi
          stakeVTAmountInWei before
        = (Thrown e, before))
  /\ (forall approver originWeb3,
      globals !! "originWeb3" = Some originWeb3 ->
      Staker.approveForValueToken globals approver valueTokenAbi
        stakeVTAmountInWei before
      = (Thrown (Error [Lit "Value token abi is not provided"]), before)).
Proof.
  intros Hempty. split; [|split].
  - unfold Staker.stake, async, bind at 1.
    destruct (free_cases globals "oThis") as [[oThis ->] | ->]; simpl;
      [|by eexists].
    unfold bind at 1.
    destruct (receiver_cases oThis "approveForValueToken")
      as [[approver ->] | [e ->]]; simpl; [|by eexists].
    unfold bind at 1.
    destruct (approveForValueToken_empty globals approver valueTokenAbi
                stakeVTAmountInWei before Hempty) as [e ->].
    by eexists.
  - intros approver. by apply approveForValueToken_empty.
  - intros approver originWeb3 Hbound.
    unfold Staker.approveForValueToken.
    rewrite (free_bound globals _ _ Hbound). js_step. by rewrite Hempty.
Qed.

Lemma stake_fails_on_empty_abi_witness :
  (exists e,
     run (Staker.stake Double.env ∅ Double.staker [] Double.addr1 (JStr "100")
            (JStr "35") Double.addr2 (JStr "1") (JStr "2") Double.addr1 (JStr "1"))
     = (Rejected e, []))
  /\ run (Staker.approveForValueToken {[ "originWeb3" := JWeb3 0 ]} Double.staker
            [] (JStr "100"))
     = (Thrown (Error [Lit "Value token abi is not provided"]), []).
Proof.
  split.
  - destruct (stake_fails_on_empty_abi Double.env ∅ Double.staker [] Double.addr1
                (JStr "100") (JStr "35") Double.addr2 (JStr "1") (JStr "2")
                Double.addr1 (JStr "1") []) as (Hstake & _ & _); [reflexivity|].
    exact Hstake.
  - destruct (stake_fails_on_empty_abi Double.env {[ "originWeb3" := JWeb3 0 ]}
                Double.staker [] Double.addr1 (JStr "100") (JStr "35")
                Double.addr2 (JStr "1") (JStr "2") Double.addr1 (JStr "1") [])
      as (_ & _ & Hcheck); [reflexivity|].
    apply (Hcheck Double.staker (JWeb3 0)). reflexivity.
Defined.

(** C3. What [stake] does instead of approving first: in the scope of the
    module, where no [oThis] is bound, every invocation is rejected with the
    ReferenceError for [oThis] and nothing is built or submitted; and in
    every scope, the events [stake] adds contain no submission of [approve]:
    the approval step returns the call unsent. *)
Theorem stake_submits_no_approval
    env this valueTokenAbi owner stakeVTAmountInWei mintBTAmountInWei
    gatewayAddress gasPrice gasLimit beneficiary stakerGatewayNonce before :
  Staker.stake env ∅ this valueTokenAbi owner stakeVTAmountInWei
    mintBTAmountInWei gatewayAddress gasPrice gasLimit beneficiary
    stakerGatewayNonce before
  = (Rejected (ReferenceError "oThis"), before)
  /\ forall globals,
       exists outcome added,
         Staker.stake env globals this valueTokenAbi owner stakeVTAmountInWei
           mintBTAmountInWei gatewayAddress gasPrice gasLimit beneficiary
           stakerGatewayNonce before
         = (outcome, before ++ added)
         /\ existsb (submits "approve") added = false.
Proof.
  split; [reflexivity|].
  intros globals. apply stake_events.
Qed.

(** Where the scope binds the three names to an instance and its connection,
    [stake] submits the composer's [requestStake] and still no [approve]. *)
Lemma stake_in_bound_scope_skips_approval :
  let globals : gmap string jsval :=
    {[ "oThis" := JStaker Double.staker;
       "originWeb3" := JWeb3 0;
       "txOptions" := Double.from1 ]} in
  let events :=
    (run (Staker.stake Double.env globals Double.staker [JStr "approve"]
            Double.addr1 (JStr "100") (JStr "35") Double.addr2 (JStr "1")
            (JStr "2") Double.addr1 (JStr "1"))).2 in
  existsb (submits "requestStake") events = true
  /\ existsb (submits "approve") events = false.
Proof. split; reflexivity. Qed.

(** * Further properties of the two classes *)

(** ** BrandedToken: every submitting form checks the options first *)

Section SubmittingForms.
Variable env : Env.
Variable this : BrandedToken.instance.

(** A submitting form whose options are well-formed is its raw form followed
    by [Utils.sendTransaction] with the same options. *)
Lemma acceptStakeRequest_after_validation stakeRequestHash r s v txOptions before :
  valid_from env txOptions = true ->
  BrandedToken.acceptStakeRequest env this stakeRequestHash r s v txOptions before
  = async (let! tx := BrandedToken.acceptStakeRequestRawTx this stakeRequestHash r s v in
           BrandedToken.sendTransaction env tx txOptions) before.
Proof.
  intros [Htruthy (from & Hfrom & Haddr)]%valid_from_inv.
  unfold BrandedToken.acceptStakeRequest, async.
  rewrite Htruthy, Hfrom. simpl. unfold bind at 1. simpl. by rewrite Haddr.
Qed.

Lemma liftRestriction_after_validation addresses txOptions before :
  valid_from env txOptions = true ->
  BrandedToken.liftRestriction env this addresses txOptions before
  = async (let! tx := BrandedToken.liftRestrictionRawTx this addresses in
           BrandedToken.sendTransaction env tx txOptions) before.
Proof.
  intros [Htruthy (from & Hfrom & Haddr)]%valid_from_inv.
  unfold BrandedToken.liftRestriction, async.
  rewrite Htruthy, Hfrom. simpl. unfold bind at 1. simpl. by rewrite Haddr.
Qed.

Lemma rejectStakeRequest_after_validation stakeRequestHash txOptions before :
  valid_from env txOptions = true ->
  BrandedToken.rejectStakeRequest env this stakeRequestHash txOptions before
  = async (let! tx := BrandedToken.rejectStakeRequestRawTx this stakeRequestHash in
           BrandedToken.sendTransaction env tx txOptions) before.
Proof.
  intros [Htruthy (from & Hfrom & Haddr)]%valid_from_inv.
  unfold BrandedToken.rejectStakeRequest, async.
  rewrite Htruthy, Hfrom. simpl. unfold bind at 1. simpl. by rewrite Haddr.
Qed.

Lemma redeem_after_validation amount txOptions before :
  valid_from env txOptions = true ->
  BrandedToken.redeem env this amount txOptions before
  = async (let! txObject := BrandedToken.redeemRawTx this amount in
           BrandedToken.sendTransaction env txObject txOptions) before.
Proof.
  intros [Htruthy (from & Hfrom & Haddr)]%valid_from_inv.
  unfold BrandedToken.redeem, async.
  rewrite Htruthy, Hfrom. simpl. unfold bind at 1. simpl. by rewrite Haddr.
Qed.

Lemma requestStake_after_validation stakeAmount txOptions before :
  valid_from env txOptions = true ->
  BrandedToken.requestStake env this stakeAmount txOptions before
  = async (let! mintedAmount := BrandedToken.convertToBrandedTokens env this stakeAmount in
           let! tx := BrandedToken.requestStakeRawTx this stakeAmount mintedAmount in
           BrandedToken.sendTransaction env tx txOptions) before.
Proof.
  intros [Htruthy (from & Hfrom & Haddr)]%valid_from_inv.
  unfold BrandedToken.requestStake, async.
  rewrite Htruthy, Hfrom. simpl. unfold bind at 1. simpl. by rewrite Haddr.
Qed.

(** Options without a well-formed [from] stop the other submitting forms
    too. *)
Lemma requestStake_invalid_from stakeAmount txOptions before :
  valid_from env txOptions = false ->
  validation_error before
    (BrandedToken.requestStake env this stakeAmount txOptions before).
Proof.
  unfold valid_from, BrandedToken.requestStake. intros Hinvalid.
  destruct (ToBoolean txOptions) eqn:Htruthy; simpl in *;
    [|apply logged_rejection_is_validation_error].
  destruct (get_prop_truthy txOptions "from" Htruthy) as [from Hfrom].
  rewrite Hfrom in *. js_step. rewrite Hinvalid. simpl.
  apply logged_rejection_is_validation_error.
Qed.

Lemma liftRestriction_invalid_from addresses txOptions before :
  valid_from env txOptions = false ->
  validation_error before
    (BrandedToken.liftRestriction env this addresses txOptions before).
Proof.
  unfold valid_from, BrandedToken.liftRestriction. intros Hinvalid.
  destruct (ToBoolean txOptions) eqn:Htruthy; simpl in *;
    [|apply logged_rejection_is_validation_error].
  destruct (get_prop_truthy txOptions "from" Htruthy) as [from Hfrom].
  rewrite Hfrom in *. js_step. rewrite Hinvalid. simpl.
  apply logged_rejection_is_validation_error.
Qed.

Lemma redeem_invalid_from amount txOptions before :
  valid_from env txOptions = false ->
  validation_error before (BrandedToken.redeem env this amount txOptions before).
Proof.
  unfold valid_from, BrandedToken.redeem. intros Hinvalid.
  destruct (ToBoolean txOptions) eqn:Htruthy; simpl in *;
    [|apply silent_rejection_is_validation_error].
  destruct (get_prop_truthy txOptions "from" Htruthy) as [from Hfrom].
  rewrite Hfrom in *. js_step. rewrite Hinvalid. simpl.
  apply silent_rejection_is_validation_error.
Qed.

Lemma deploy_invalid_from
    web3 valueToken symbol name decimals conversionRate conversionRateDecimals
    organization txOptions before :
  valid_from env txOptions = false ->
  validation_error before
    (BrandedToken.deploy env web3 valueToken symbol name decimals conversionRate
       conversionRateDecimals organization txOptions before).
Proof.
  unfold valid_from, BrandedToken.deploy. intros Hinvalid.
  destruct (ToBoolean txOptions) eqn:Htruthy; simpl in *.
  - destruct (get_prop_truthy txOptions "from" Htruthy) as [from Hfrom].
    rewrite Hfrom in *. js_step. rewrite Hinvalid. simpl.
    apply logged_rejection_is_validation_error.
  - js_step. exists [Lit "Invalid transaction options."],
      [Log [Lit "Invalid transaction options: "; Sub txOptions]].
    simpl. auto.
Qed.

End SubmittingForms.

(** X1. Whenever the options are falsy or their [from] is not a well-formed
    address, each of [requestStake], [liftRestriction], [redeem] and [deploy]
    rejects with a [TypeError] and has neither read from the chain nor
    submitted anything, whatever the other arguments are. *)
Theorem invalid_from_stops_every_submission
    env this web3 valueToken symbol name decimals conversionRate
    conversionRateDecimals organization stakeAmount addresses amount
    txOptions before :
  valid_from env txOptions = false ->
  validation_error before
    (BrandedToken.requestStake env this stakeAmount txOptions before)
  /\ validation_error before
       (BrandedToken.liftRestriction env this addresses txOptions before)
  /\ validation_error before
       (BrandedToken.redeem env this amount txOptions before)
  /\ validation_error before
       (BrandedToken.deploy env web3 valueToken symbol name decimals
          conversionRate conversionRateDecimals organization txOptions before).
Proof.
  intros Hinvalid. repeat split.
  - by apply requestStake_invalid_from.
  - by apply liftRestriction_invalid_from.
  - by apply redeem_invalid_from.
  - by apply deploy_invalid_from.
Qed.

Lemma invalid_from_stops_every_submission_witness :
  validation_error []
    (run (BrandedToken.requestStake Double.env Double.token (JStr "100")
            (JObj {[ "from" := JStr "0x12" ]})))
  /\ validation_error []
       (run (BrandedToken.redeem Double.env Double.token (JStr "100") JNull)).
Proof.
  split.
  - destruct (invalid_from_stops_every_submission Double.env Double.token
                (JWeb3 0) Double.addr1 (JStr "BT") (JStr "Branded") (num 18)
                (Fin 35) (Fin 1) Double.addr2 (JStr "100") (JArr [Double.addr1])
                (JStr "100") (JObj {[ "from" := JStr "0x12" ]}) [])
      as (Hrequest & _); [reflexivity | exact Hrequest].
  - destruct (invalid_from_stops_every_submission Double.env Double.token
                (JWeb3 0) Double.addr1 (JStr "BT") (JStr "Branded") (num 18)
                (Fin 35) (Fin 1) Double.addr2 (JStr "100") (JArr [Double.addr1])
                (JStr "100") JNull [])
      as (_ & _ & Hredeem & _); [reflexivity | exact Hredeem].
Defined.



(** ** BrandedToken: what deployment accepts and what it returns *)

Section Deployment.
Variable env : Env.
Variables web3 valueToken symbol name decimals organization : jsval.
Variables conversionRate conversionRateDecimals : jsnum.

Local Abbreviation rawTx :=
  (BrandedToken.deployRawTx env web3 valueToken symbol name decimals
     conversionRate conversionRateDecimals organization).

Local Abbreviation args :=
  [valueToken; symbol; name; decimals; JNum conversionRate;
   JNum conversionRateDecimals; organization].

(** The five checks of [deployRawTx], in the order the source makes them. *)
Lemma deployRawTx_checks before :
  instanceof_Web3 web3 && isAddress env valueToken && isAddress env organization
  && js_gt conversionRate (Fin 0) && js_le conversionRateDecimals (Fin 5) = false ->
  exists message,
    rawTx before = (Thrown (TypeError message), before ++ [Log message]).
Proof.
  unfold BrandedToken.deployRawTx. intros Hchecks.
  destruct (instanceof_Web3 web3); simpl; [|by eexists].
  destruct (isAddress env valueToken); simpl; [|by eexists].
  destruct (isAddress env organization); simpl; [|by eexists].
  destruct (js_gt conversionRate (Fin 0)); simpl; [|by eexists].
  destruct (js_le conversionRateDecimals (Fin 5)); simpl; [done | by eexists].
Qed.

Lemma deployRawTx_passes before :
  instanceof_Web3 web3 && isAddress env valueToken && isAddress env organization
  && js_gt conversionRate (Fin 0) && js_le conversionRateDecimals (Fin 5) = true ->
  rawTx before
  = (match getBrandedToken env web3 JUndefined with
     | Some contract =>
         Ok (Deployment contract (getBIN env BrandedToken.ContractName) args)
     | None => Thrown (TypeError [Lit "contract.deploy is not a function"])
     end, before).
Proof.
  unfold BrandedToken.deployRawTx.
  intros ((((-> & ->)%andb_true_iff & ->)%andb_true_iff
           & ->)%andb_true_iff & ->)%andb_true_iff.
  simpl. by destruct (getBrandedToken env web3 JUndefined).
Qed.

End Deployment.

(** X3. [deployRawTx] returns a transaction object exactly when the
    connection is a [Web3] instance, the value-token and organization
    addresses are well-formed, [conversionRate > 0],
    [conversionRateDecimals <= 5] and the registry has the contract; the
    object is then the deployment of the BrandedToken binary with the seven
    constructor arguments in the order (valueToken, symbol, name, decimals,
    conversionRate, conversionRateDecimals, organization), and no event was
    added.  In every other case it throws a [TypeError] and has added at most
    the log line of that error. *)
Theorem deployRawTx_returns_exactly_when_valid
    env web3 valueToken symbol name decimals conversionRate
    conversionRateDecimals organization before :
  let outcome :=
    BrandedToken.deployRawTx env web3 valueToken symbol name decimals
      conversionRate conversionRateDecimals organization before in
  ((exists t, outcome.1 = Ok t)
   <-> instanceof_Web3 web3 = true
       /\ isAddress env valueToken = true
       /\ isAddress env organization = true
       /\ js_gt conversionRate (Fin 0) = true
       /\ js_le conversionRateDecimals (Fin 5) = true
       /\ is_Some (getBrandedToken env web3 JUndefined))
  /\ (forall t,
      outcome.1 = Ok t ->
      exists contract,
        getBrandedToken env web3 JUndefined = Some contract
        /\ t = Deployment contract (getBIN env BrandedToken.ContractName)
                 [valueToken; symbol; name; decimals; JNum conversionRate;
                  JNum conversionRateDecimals; organization]
        /\ outcome.2 = before)
  /\ ((exists t, outcome.1 = Ok t)
      \/ exists message,
           outcome.1 = Thrown (TypeError message)
           /\ (outcome.2 = before \/ outcome.2 = before ++ [Log message])).
Proof.
  intros outcome. subst outcome.
  destruct (instanceof_Web3 web3 && isAddress env valueToken
            && isAddress env organization && js_gt conversionRate (Fin 0)
            && js_le conversionRateDecimals (Fin 5)) eqn:Hchecks.
  - rewrite (deployRawTx_passes env web3 valueToken symbol name decimals
               organization conversionRate conversionRateDecimals before Hchecks).
    apply andb_true_iff in Hchecks as [Hchecks Hdec].
    apply andb_true_iff in Hchecks as [Hchecks Hrate].
    apply andb_true_iff in Hchecks as [Hchecks Horg].
    apply andb_true_iff in Hchecks as [Hweb3 Hvalue].
    destruct (getBrandedToken env web3 JUndefined) as [contract|]; simpl.
    + split; [|split].
      * split; [intros _; repeat split; eauto | eauto].
      * intros t [= <-]. by exists contract.
      * left. eauto.
    + split; [|split].
      * split; [by intros [t ?] | by intros (_ & _ & _ & _ & _ & [c ?])].
      * by intros t ?.
      * right. eexists. split; [done | by left].
  - destruct (deployRawTx_checks env web3 valueToken symbol name decimals
                organization conversionRate conversionRateDecimals before Hchecks)
      as [message ->]. simpl.
    split; [|split].
    + split; [by intros [t ?]|].
      intros (Hweb3 & Hvalue & Horg & Hrate & Hdec & _).
      by rewrite Hweb3, Hvalue, Horg, Hrate, Hdec in Hchecks.
    + by intros t ?.
    + right. exists message. split; [done | by right].
Qed.

Lemma deployRawTx_returns_exactly_when_valid_witness :
  (exists t,
     (run (BrandedToken.deployRawTx Double.env (JWeb3 0) Double.addr1 (JStr "BT")
             (JStr "Branded") (num 18) (Fin 35) (Fin 1) Double.addr2)).1 = Ok t)
  /\ ~ exists t,
         (run (BrandedToken.deployRawTx Double.env (JWeb3 0) (JStr "0x12")
                 (JStr "BT") (JStr "Branded") (num 18) (Fin 35) (Fin 1)
                 Double.addr2)).1 = Ok t.
Proof.
  split.
  - apply (deployRawTx_returns_exactly_when_valid Double.env (JWeb3 0)
             Double.addr1 (JStr "BT") (JStr "Branded") (num 18) (Fin 35) (Fin 1)
             Double.addr2 []).
    repeat split; eauto.
  - intros Hok.
    apply (deployRawTx_returns_exactly_when_valid Double.env (JWeb3 0)
             (JStr "0x12") (JStr "BT") (JStr "Branded") (num 18) (Fin 35) (Fin 1)
             Double.addr2 []) in Hok.
    destruct Hok as (_ & Hvalue & _). discriminate Hvalue.
Defined.

(** X4. The two numeric checks of deployment on numbers, the other
    arguments being valid and the contract in the registry.  [NaN] fails
    both: a [NaN] rate or a [NaN] number of decimals makes [deployRawTx]
    throw.  For finite numbers [deployRawTx] returns a transaction object
    exactly when [0 < conversionRate] and [conversionRateDecimals <= 5]:
    the decimals have no lower bound, a negative or fractional number of
    decimals is accepted. *)
Theorem conversion_checks_on_numbers
    env web3 valueToken symbol name decimals organization contract before :
  instanceof_Web3 web3 = true ->
  isAddress env valueToken = true ->
  isAddress env organization = true ->
  getBrandedToken env web3 JUndefined = Some contract ->
  (forall conversionRate conversionRateDecimals,
     conversionRate = NaN \/ conversionRateDecimals = NaN ->
     exists message,
       BrandedToken.deployRawTx env web3 valueToken symbol name decimals
         conversionRate conversionRateDecimals organization before
       = (Thrown (TypeError message), before ++ [Log message]))
  /\ (forall p q : Q,
      (exists t,
         BrandedToken.deployRawTx env web3 valueToken symbol name decimals
           (Fin p) (Fin q) organization before
         = (Ok t, before))
      <-> (0 < p)%Q /\ (q <= 5)%Q).
Proof.
  intros Hweb3 Hvalue Horg Hcontract. split.
  - intros conversionRate conversionRateDecimals Hnan.
    apply deployRawTx_checks.
    destruct Hnan as [-> | ->]; simpl; by rewrite andb_false_r.
  - intros p q. rewrite <- js_gt_spec, <- js_le_spec.
    destruct (js_gt (Fin p) (Fin 0) && js_le (Fin q) (Fin 5)) eqn:Hchecks.
    + rewrite (deployRawTx_passes env web3 valueToken symbol name decimals
                 organization (Fin p) (Fin q) before)
        by (by rewrite Hweb3, Hvalue, Horg, <- !andb_assoc, Hchecks).
      rewrite Hcontract.
      apply andb_true_iff in Hchecks. split; [done | eauto].
    + destruct (deployRawTx_checks env web3 valueToken symbol name decimals
                  organization (Fin p) (Fin q) before) as [message ->];
        [by rewrite Hweb3, Hvalue, Horg, <- !andb_assoc, Hchecks|].
      split; [by intros [t ?]|].
      intros [Hrate Hdec]. by rewrite Hrate, Hdec in Hchecks.
Qed.

Lemma conversion_checks_on_numbers_witness :
  (exists message,
     run (BrandedToken.deployRawTx Double.env (JWeb3 0) Double.addr1 (JStr "BT")
            (JStr "Branded") (num 18) NaN (Fin 1) Double.addr2)
     = (Thrown (TypeError message), [Log message]))
  /\ exists t,
       run (BrandedToken.deployRawTx Double.env (JWeb3 0) Double.addr1 (JStr "BT")
              (JStr "Branded") (num 18) (Fin 35) (Fin (-1)) Double.addr2)
       = (Ok t, []).
Proof.
  destruct (conversion_checks_on_numbers Double.env (JWeb3 0) Double.addr1
              (JStr "BT") (JStr "Branded") (num 18) Double.addr2
              (Contract 0 Double.abi JUndefined JUndefined) [])
    as (Hnan & Hfinite); try reflexivity.
  split.
  - apply Hnan. left; reflexivity.
  - apply Hfinite. split; [reflexivity | unfold Qle; simpl; lia].
Defined.

(** X5. A deployment whose arguments pass every check submits exactly one
    transaction, the deployment object of [deployRawTx] with the caller's
    options.  If the submission fails, [deploy] rejects with the error of the
    connection.  If it succeeds and the receipt's [contractAddress] is
    well-formed and in the registry, [deploy] resolves to the instance bound
    to that address.  If the receipt's [contractAddress] is not a
    well-formed address, [deploy] rejects with the constructor's [TypeError]
    although the transaction has been submitted. *)
Theorem deploy_submits_then_binds
    env web3 valueToken symbol name decimals conversionRate
    conversionRateDecimals organization txOptions contract before :
  valid_from env txOptions = true ->
  instanceof_Web3 web3 = true ->
  isAddress env valueToken = true ->
  isAddress env organization = true ->
  js_gt conversionRate (Fin 0) = true ->
  js_le conversionRateDecimals (Fin 5) = true ->
  getBrandedToken env web3 JUndefined = Some contract ->
  let deployment :=
    Deployment contract (getBIN env BrandedToken.ContractName)
      [valueToken; symbol; name; decimals; JNum conversionRate;
       JNum conversionRateDecimals; organization] in
  let outcome :=
    BrandedToken.deploy env web3 valueToken symbol name decimals conversionRate
      conversionRateDecimals organization txOptions before in
  let submitted := before ++ [Submit deployment txOptions] in
  (forall reason,
     send_reply env before deployment txOptions = inr reason ->
     outcome = (Rejected (Remote reason), submitted))
  /\ (forall receipt address deployed,
      send_reply env before deployment txOptions = inl receipt ->
      get_prop receipt "contractAddress" = Ok address ->
      isAddress env address = true ->
      getBrandedToken env web3 address = Some deployed ->
      outcome = (Ok (BrandedToken.Instance web3 address deployed), submitted))
  /\ (forall receipt address,
      send_reply env before deployment txOptions = inl receipt ->
      get_prop receipt "contractAddress" = Ok address ->
      isAddress env address = false ->
      exists message,
        outcome = (Rejected (TypeError message), submitted ++ [Log message])).
Proof.
  intros [Htruthy (from & Hfrom & Haddr)]%valid_from_inv Hweb3 Hvalue Horg Hrate
    Hdec Hcontract deployment outcome submitted.
  assert (outcome
          = async (let! txReceipt := BrandedToken.sendTransaction env deployment txOptions in
                   let! address := lift (get_prop txReceipt "contractAddress") in
                   BrandedToken.constructor env web3 address) before) as ->.
  { unfold outcome, BrandedToken.deploy, async.
    rewrite Htruthy, Hfrom. simpl. unfold bind at 1. simpl. rewrite Haddr. simpl.
    unfold bind at 1.
    rewrite (deployRawTx_passes env web3 valueToken symbol name decimals
               organization conversionRate conversionRateDecimals before)
      by (by rewrite Hweb3, Hvalue, Horg, Hrate, Hdec).
    by rewrite Hcontract. }
  split; [|split].
  - intros reason Hreply.
    unfold async, bind, BrandedToken.sendTransaction. by rewrite Hreply.
  - intros receipt address deployed Hreply Haddress Hwell Hdeployed.
    unfold async, bind, lift, BrandedToken.sendTransaction.
    rewrite Hreply, Haddress.
    unfold BrandedToken.constructor. by rewrite Hweb3, Hwell, Hdeployed.
  - intros receipt address Hreply Haddress Hbad.
    unfold async, bind, lift, BrandedToken.sendTransaction.
    rewrite Hreply, Haddress.
    unfold BrandedToken.constructor. rewrite Hweb3, Hbad. simpl. by eexists.
Qed.

Lemma deploy_submits_then_binds_witness :
  run (BrandedToken.deploy Double.env (JWeb3 0) Double.addr1 (JStr "BT")
         (JStr "Branded") (num 18) (Fin 35) (Fin 1) Double.addr1 Double.from1)
  = (Ok Double.token,
     [Submit (Deployment (Contract 0 Double.abi JUndefined JUndefined)
                (JStr "0x60")
                [Double.addr1; JStr "BT"; JStr "Branded"; num 18; JNum (Fin 35);
                 JNum (Fin 1); Double.addr1]) Double.from1]).
Proof.
  pose proof (deploy_submits_then_binds Double.env (JWeb3 0) Double.addr1
                (JStr "BT") (JStr "Branded") (num 18) (Fin 35) (Fin 1)
                Double.addr1 Double.from1
                (Contract 0 Double.abi JUndefined JUndefined) []
                eq_refl eq_refl eq_refl eq_refl eq_refl eq_refl eq_refl)
    as (_ & Hbinds & _).
  apply (Hbinds (JObj {[ "contractAddress" := Double.addr2 ]}) Double.addr2
           (Contract 0 Double.abi Double.addr2 JUndefined)); reflexivity.
Defined.

(** ** BrandedToken: which arguments the raw forms accept *)

(** X6. [acceptStakeRequestRawTx] resolves exactly when all four of
    [stakeRequestHash], [r], [s], [v] are truthy, to the call
    [acceptStakeRequest(stakeRequestHash, r, s, v)] with the arguments in
    that order; with a well-formed [from] as well, [acceptStakeRequest]
    submits that one call with the caller's options and its outcome is the
    answer of the connection. *)
Theorem acceptStakeRequest_submits_the_four_fields
    env this stakeRequestHash r s v txOptions before :
  let call :=
    MethodCall (BrandedToken.contract_ this) "acceptStakeRequest"
      [stakeRequestHash; r; s; v] in
  ((exists t,
      BrandedToken.acceptStakeRequestRawTx this stakeRequestHash r s v before
      = (Ok t, before))
   <-> ToBoolean stakeRequestHash = true /\ ToBoolean r = true
       /\ ToBoolean s = true /\ ToBoolean v = true)
  /\ (ToBoolean stakeRequestHash = true -> ToBoolean r = true ->
      ToBoolean s = true -> ToBoolean v = true ->
      BrandedToken.acceptStakeRequestRawTx this stakeRequestHash r s v before
      = (Ok call, before)
      /\ (valid_from env txOptions = true ->
          BrandedToken.acceptStakeRequest env this stakeRequestHash r s v
            txOptions before
          = (match send_reply env before call txOptions with
             | inl receipt => Ok receipt
             | inr reason => Rejected (Remote reason)
             end, before ++ [Submit call txOptions]))).
Proof.
  intros call.
  assert (ToBoolean stakeRequestHash = true -> ToBoolean r = true ->
          ToBoolean s = true -> ToBoolean v = true ->
          BrandedToken.acceptStakeRequestRawTx this stakeRequestHash r s v before
          = (Ok call, before)) as Hraw.
  { intros Hh Hr Hs Hv. unfold BrandedToken.acceptStakeRequestRawTx.
    by rewrite Hh, Hr, Hs, Hv. }
  split.
  - split.
    + intros [t Hok].
      destruct (ToBoolean stakeRequestHash) eqn:Hh, (ToBoolean r) eqn:Hr,
        (ToBoolean s) eqn:Hs, (ToBoolean v) eqn:Hv; try done;
        destruct (acceptStakeRequestRawTx_falsy this stakeRequestHash r s v before)
          as [message Hrejected]; try (rewrite Hrejected in Hok; done);
        rewrite ?Hh, ?Hr, ?Hs, ?Hv; auto.
    + intros (Hh & Hr & Hs & Hv). eexists. by apply Hraw.
  - intros Hh Hr Hs Hv. split; [by apply Hraw|].
    intros Hvalid.
    rewrite acceptStakeRequest_after_validation by done.
    unfold async, bind. rewrite Hraw by done.
    unfold BrandedToken.sendTransaction.
    by destruct (send_reply env before call txOptions).
Qed.

Lemma acceptStakeRequest_submits_the_four_fields_witness :
  run (BrandedToken.acceptStakeRequest Double.env Double.token (JStr "0xhash")
         (JStr "0xr") (JStr "0xs") (num 27) Double.from1)
  = (Ok (JObj {[ "contractAddress" := Double.addr2 ]}),
     [Submit (MethodCall (BrandedToken.contract_ Double.token)
                "acceptStakeRequest"
                [JStr "0xhash"; JStr "0xr"; JStr "0xs"; num 27]) Double.from1]).
Proof.
  destruct (acceptStakeRequest_submits_the_four_fields Double.env Double.token
              (JStr "0xhash") (JStr "0xr") (JStr "0xs") (num 27) Double.from1 [])
    as [_ Hsubmits].
  destruct (Hsubmits eq_refl eq_refl eq_refl eq_refl) as [_ Hsubmitted].
  apply Hsubmitted. reflexivity.
Defined.

(** X7. [rejectStakeRequestRawTx] resolves exactly when the hash is truthy
    and [redeemRawTx] exactly when the amount is truthy, to the one-argument
    calls [rejectStakeRequest(stakeRequestHash)] and [redeem(amount)]; with a
    well-formed [from] the submitting forms submit that call with the
    caller's options and their outcome is the answer of the connection. *)
Theorem reject_and_redeem_submit_their_argument env this value txOptions before :
  let rejection :=
    MethodCall (BrandedToken.contract_ this) "rejectStakeRequest" [value] in
  let redemption := MethodCall (BrandedToken.contract_ this) "redeem" [value] in
  let answer (call : tx) : result jsval * list event :=
    (match send_reply env before call txOptions with
     | inl receipt => Ok receipt
     | inr reason => Rejected (Remote reason)
     end, before ++ [Submit call txOptions]) in
  ((exists t, BrandedToken.rejectStakeRequestRawTx this value before = (Ok t, before))
   <-> ToBoolean value = true)
  /\ ((exists t, BrandedToken.redeemRawTx this value before = (Ok t, before))
      <-> ToBoolean value = true)
  /\ (ToBoolean value = true ->
      BrandedToken.rejectStakeRequestRawTx this value before = (Ok rejection, before)
      /\ BrandedToken.redeemRawTx this value before = (Ok redemption, before)
      /\ (valid_from env txOptions = true ->
          BrandedToken.rejectStakeRequest env this value txOptions before
          = answer rejection
          /\ BrandedToken.redeem env this value txOptions before
             = answer redemption)).
Proof.
  intros rejection redemption answer.
  unfold BrandedToken.rejectStakeRequestRawTx, BrandedToken.redeemRawTx.
  split; [|split].
  - destruct (ToBoolean value); simpl; split; eauto;
      try (by intros [t ?]); done.
  - destruct (ToBoolean value); simpl; split; eauto;
      try (by intros [t ?]); done.
  - intros Htruthy. rewrite Htruthy. simpl.
    split; [done|]. split; [done|]. intros Hvalid.
    rewrite rejectStakeRequest_after_validation,
      redeem_after_validation by done.
    unfold async, bind, BrandedToken.rejectStakeRequestRawTx,
      BrandedToken.redeemRawTx, BrandedToken.sendTransaction, answer.
    rewrite Htruthy. simpl. fold rejection. fold redemption.
    split.
    + by destruct (send_reply env before rejection txOptions).
    + by destruct (send_reply env before redemption txOptions).
Qed.

Lemma reject_and_redeem_submit_their_argument_witness :
  run (BrandedToken.redeem Double.env Double.token (JStr "100") Double.from1)
  = (Ok (JObj {[ "contractAddress" := Double.addr2 ]}),
     [Submit (MethodCall (BrandedToken.contract_ Double.token) "redeem"
                [JStr "100"]) Double.from1]).
Proof.
  pose proof (reject_and_redeem_submit_their_argument Double.env Double.token
                (JStr "100") Double.from1 []) as Hboth.
  cbv zeta in Hboth. destruct Hboth as (_ & _ & Htruthy).
  destruct (Htruthy eq_refl) as (_ & _ & Hsubmitted).
  destruct (Hsubmitted eq_refl) as [_ Hredeem].
  exact Hredeem.
Defined.

(** X8. [liftRestrictionRawTx] resolves exactly when its argument is truthy
    and has no [length] strictly equal to [0], and then to the call of
    [liftRestriction] whose single argument is that value unchanged.  So
    every non-empty array is accepted whatever its elements are (they are not
    checked to be addresses), and so is a non-empty string, while an object
    [{length: 0}] is refused. *)
Theorem liftRestrictionRawTx_accepts this addresses before :
  let call :=
    MethodCall (BrandedToken.contract_ this) "liftRestriction" [addresses] in
  ((exists t, BrandedToken.liftRestrictionRawTx this addresses before = (Ok t, before))
   <-> ToBoolean addresses = true
       /\ forall len, get_prop addresses "length" = Ok len ->
                      strict_eq_num len 0 = false)
  /\ (forall t,
      BrandedToken.liftRestrictionRawTx this addresses before = (Ok t, before) ->
      t = call)
  /\ (forall items,
      addresses = JArr items -> items <> [] ->
      BrandedToken.liftRestrictionRawTx this addresses before = (Ok call, before))
  /\ (forall s,
      addresses = JStr s -> s <> "" ->
      BrandedToken.liftRestrictionRawTx this addresses before = (Ok call, before))
  /\ (forall props,
      addresses = JObj props -> props !! "length" = Some (num 0) ->
      exists message,
        BrandedToken.liftRestrictionRawTx this addresses before
        = (Rejected (TypeError message), before ++ [Log message])).
Proof.
  intros call. unfold BrandedToken.liftRestrictionRawTx.
  split; [|split; [|split; [|split]]].
  - destruct (ToBoolean addresses) eqn:Htruthy; simpl.
    + destruct (get_prop_truthy addresses "length" Htruthy) as [len Hlen].
      rewrite Hlen.
      destruct (strict_eq_num len 0) eqn:Hzero; simpl.
      * split; [by intros [t ?]|]. intros [_ Hnonzero].
        specialize (Hnonzero len eq_refl). congruence.
      * split; [|eauto]. intros _. split; [done|].
        intros len' [= <-]. done.
    + split; [by intros [t ?] | by intros [? _]].
  - destruct (negb (ToBoolean addresses) || _); simpl; [done|].
    by intros t [= <-].
  - intros items -> Hnonempty. destruct items as [|item items]; done.
  - intros s -> Hnonempty. destruct s as [|c s]; done.
  - intros props -> Hlength. simpl. rewrite Hlength. simpl. by eexists.
Qed.

Lemma liftRestrictionRawTx_accepts_witness :
  run (BrandedToken.liftRestrictionRawTx Double.token
         (JArr [JStr "not an address"; JNull]))
  = (Ok (MethodCall (BrandedToken.contract_ Double.token) "liftRestriction"
           [JArr [JStr "not an address"; JNull]]), [])
  /\ exists message,
       run (BrandedToken.liftRestrictionRawTx Double.token
              (JObj {[ "length" := num 0 ]}))
       = (Rejected (TypeError message), [Log message]).
Proof.
  split.
  - pose proof (liftRestrictionRawTx_accepts Double.token
                  (JArr [JStr "not an address"; JNull]) []) as Haccepts.
    cbv zeta in Haccepts. destruct Haccepts as (_ & _ & Harray & _).
    by apply (Harray [JStr "not an address"; JNull]).
  - pose proof (liftRestrictionRawTx_accepts Double.token
                  (JObj {[ "length" := num 0 ]}) []) as Haccepts.
    cbv zeta in Haccepts. destruct Haccepts as (_ & _ & _ & _ & Hobject).
    by apply (Hobject {[ "length" := num 0 ]}).
Defined.

(** ** BrandedToken: what touches the chain *)

Section OnChain.
Variable env : Env.
Variable this : BrandedToken.instance.

Lemma off_chain_counts events :
  off_chain events = true ->
  count is_submit events = 0 /\ count is_read events = 0.
Proof.
  unfold off_chain, count. induction events as [|e events IH]; [done|].
  simpl. intros [He Hevents]%andb_true_iff.
  destruct (IH Hevents) as [IHs IHr].
  destruct e; simpl in *; try done.
Qed.

Lemma count_app f events more :
  count f (events ++ more) = count f events + count f more.
Proof. unfold count. by rewrite List.filter_app, length_app. Qed.

(** A raw form that stays off the chain, followed by the submission of what
    it returned: at most one submission and no read. *)
Lemma send_after_raw (raw : M tx) txOptions before :
  (exists outcome logged,
     raw before = (outcome, before ++ logged) /\ off_chain logged = true) ->
  exists outcome added,
    async (let! t := raw in BrandedToken.sendTransaction env t txOptions) before
    = (outcome, before ++ added)
    /\ count is_submit added <= 1
    /\ count is_read added = 0.
Proof.
  intros (outcome & logged & Hraw & Hquiet).
  destruct (off_chain_counts logged Hquiet) as [Hsubmits Hreads].
  unfold async, bind. rewrite Hraw.
  destruct outcome as [t|e|e].
  - unfold BrandedToken.sendTransaction.
    destruct (send_reply env _ t txOptions);
      eexists _, (logged ++ [Submit t txOptions]);
      rewrite !count_app, Hsubmits, Hreads, app_assoc; simpl; auto.
  - exists (Rejected e), logged. rewrite Hsubmits, Hreads. auto.
  - exists (Rejected e), logged. rewrite Hsubmits, Hreads. auto.
Qed.

(** A validation error adds neither a submission nor a read. *)
Lemma validation_error_counts {A} (outcome : result A * list event) before :
  validation_error before outcome ->
  exists result added,
    outcome = (result, before ++ added)
    /\ count is_submit added <= 1
    /\ count is_read added = 0.
Proof.
  intros (message & logged & _ & Hevents & Hquiet).
  destruct (off_chain_counts logged Hquiet) as [Hsubmits Hreads].
  exists outcome.1, logged. rewrite Hsubmits, Hreads.
  destruct outcome as [result events]. simpl in *. subst events. auto.
Qed.

Lemma acceptStakeRequestRawTx_off_chain stakeRequestHash r s v before :
  exists outcome logged,
    BrandedToken.acceptStakeRequestRawTx this stakeRequestHash r s v before
    = (outcome, before ++ logged)
    /\ off_chain logged = true.
Proof.
  unfold BrandedToken.acceptStakeRequestRawTx.
  destruct (ToBoolean stakeRequestHash); simpl;
    [|by eexists _, [_]].
  destruct (ToBoolean r); simpl; [|by eexists _, [_]].
  destruct (ToBoolean s); simpl; [|by eexists _, [_]].
  destruct (ToBoolean v); simpl; [|by eexists _, [_]].
  eexists _, []. by rewrite app_nil_r.
Qed.

Lemma rejectStakeRequestRawTx_off_chain stakeRequestHash before :
  exists outcome logged,
    BrandedToken.rejectStakeRequestRawTx this stakeRequestHash before
    = (outcome, before ++ logged)
    /\ off_chain logged = true.
Proof.
  unfold BrandedToken.rejectStakeRequestRawTx.
  destruct (ToBoolean stakeRequestHash); simpl; [|by eexists _, [_]].
  eexists _, []. by rewrite app_nil_r.
Qed.

Lemma liftRestrictionRawTx_off_chain addresses before :
  exists outcome logged,
    BrandedToken.liftRestrictionRawTx this addresses before
    = (outcome, before ++ logged)
    /\ off_chain logged = true.
Proof.
  unfold BrandedToken.liftRestrictionRawTx.
  destruct (negb (ToBoolean addresses) || _); simpl; [by eexists _, [_]|].
  eexists _, []. by rewrite app_nil_r.
Qed.

Lemma redeemRawTx_off_chain amount before :
  exists outcome logged,
    BrandedToken.redeemRawTx this amount before = (outcome, before ++ logged)
    /\ off_chain logged = true.
Proof.
  unfold BrandedToken.redeemRawTx.
  destruct (ToBoolean amount); simpl; eexists _, []; by rewrite app_nil_r.
Qed.

Lemma deployRawTx_off_chain
    web3 valueToken symbol name decimals conversionRate conversionRateDecimals
    organization before :
  exists outcome logged,
    BrandedToken.deployRawTx env web3 valueToken symbol name decimals
      conversionRate conversionRateDecimals organization before
    = (outcome, before ++ logged)
    /\ off_chain logged = true.
Proof.
  destruct (instanceof_Web3 web3 && isAddress env valueToken
            && isAddress env organization && js_gt conversionRate (Fin 0)
            && js_le conversionRateDecimals (Fin 5)) eqn:Hchecks.
  - rewrite (deployRawTx_passes env web3 valueToken symbol name decimals
               organization conversionRate conversionRateDecimals before Hchecks).
    eexists _, []. by rewrite app_nil_r.
  - destruct (deployRawTx_checks env web3 valueToken symbol name decimals
                organization conversionRate conversionRateDecimals before Hchecks)
      as [message ->].
    by eexists _, [_].
Qed.

Lemma constructor_off_chain web3 address before :
  exists outcome logged,
    BrandedToken.constructor env web3 address before = (outcome, before ++ logged)
    /\ off_chain logged = true.
Proof.
  unfold BrandedToken.constructor.
  destruct (instanceof_Web3 web3); simpl; [|by eexists _, [_]].
  destruct (isAddress env address); simpl; [|by eexists _, [_]].
  destruct (getBrandedToken env web3 address); simpl; [|by eexists _, [_]].
  eexists _, []. by rewrite app_nil_r.
Qed.

End OnChain.

(** X9. Building never touches the chain: whatever their arguments, the
    constructor and the six raw forms ([deployRawTx], [requestStakeRawTx],
    [acceptStakeRequestRawTx], [liftRestrictionRawTx],
    [rejectStakeRequestRawTx], [redeemRawTx]) add no read and no submission
    to the events, only log lines. *)
Theorem building_stays_off_chain
    env this web3 address valueToken symbol name decimals conversionRate
    conversionRateDecimals organization stakeAmount mintAmount
    stakeRequestHash r s v addresses amount before :
  let stays_off_chain {A} (outcome : result A * list event) :=
    exists logged, outcome.2 = before ++ logged /\ off_chain logged = true in
  stays_off_chain (BrandedToken.constructor env web3 address before)
  /\ stays_off_chain
       (BrandedToken.deployRawTx env web3 valueToken symbol name decimals
          conversionRate conversionRateDecimals organization before)
  /\ stays_off_chain
       (BrandedToken.requestStakeRawTx this stakeAmount mintAmount before)
  /\ stays_off_chain
       (BrandedToken.acceptStakeRequestRawTx this stakeRequestHash r s v before)
  /\ stays_off_chain (BrandedToken.liftRestrictionRawTx this addresses before)
  /\ stays_off_chain
       (BrandedToken.rejectStakeRequestRawTx this stakeRequestHash before)
  /\ stays_off_chain (BrandedToken.redeemRawTx this amount before).
Proof.
  intros stays_off_chain. unfold stays_off_chain.
  repeat split.
  - destruct (constructor_off_chain env web3 address before)
      as (outcome & logged & -> & Hquiet). eauto.
  - destruct (deployRawTx_off_chain env web3 valueToken symbol name decimals
                conversionRate conversionRateDecimals organization before)
      as (outcome & logged & -> & Hquiet). eauto.
  - exists []. by rewrite app_nil_r.
  - destruct (acceptStakeRequestRawTx_off_chain this stakeRequestHash r s v before)
      as (outcome & logged & -> & Hquiet). eauto.
  - destruct (liftRestrictionRawTx_off_chain this addresses before)
      as (outcome & logged & -> & Hquiet). eauto.
  - destruct (rejectStakeRequestRawTx_off_chain this stakeRequestHash before)
      as (outcome & logged & -> & Hquiet). eauto.
  - destruct (redeemRawTx_off_chain this amount before)
      as (outcome & logged & -> & Hquiet). eauto.
Qed.

(** X10. No submitting form submits more than once, and only [requestStake]
    reads: for every argument and every answer of the chain, the events that
    [deploy], [acceptStakeRequest], [rejectStakeRequest], [liftRestriction]
    and [redeem] add contain at most one submission and no read, and those
    that [requestStake] adds contain at most one submission and at most one
    read. *)
Theorem at_most_one_submission
    env this web3 valueToken symbol name decimals conversionRate
    conversionRateDecimals organization stakeAmount stakeRequestHash r s v
    addresses amount txOptions before :
  let bounded {A} (reads : nat) (outcome : result A * list event) :=
    exists added,
      outcome.2 = before ++ added
      /\ count is_submit added <= 1
      /\ count is_read added <= reads in
  bounded 0
    (BrandedToken.deploy env web3 valueToken symbol name decimals conversionRate
       conversionRateDecimals organization txOptions before)
  /\ bounded 0
       (BrandedToken.acceptStakeRequest env this stakeRequestHash r s v
          txOptions before)
  /\ bounded 0
       (BrandedToken.rejectStakeRequest env this stakeRequestHash txOptions before)
  /\ bounded 0 (BrandedToken.liftRestriction env this addresses txOptions before)
  /\ bounded 0 (BrandedToken.redeem env this amount txOptions before)
  /\ bounded 1 (BrandedToken.requestStake env this stakeAmount txOptions before).
Proof.
  intros bounded.
  assert (forall A (outcome : result A * list event),
            (exists result added,
               outcome = (result, before ++ added)
               /\ count is_submit added <= 1
               /\ count is_read added = 0) ->
            bounded A 0 outcome) as Hbounded.
  { intros A outcome (result & added & -> & Hsubmits & Hreads).
    exists added. rewrite Hreads. auto. }
  destruct (valid_from env txOptions) eqn:Hvalid.
  - repeat split.
    + (* deploy *)
      apply valid_from_inv in Hvalid as [Htruthy (from & Hfrom & Haddr)].
      unfold BrandedToken.deploy, async.
      rewrite Htruthy, Hfrom. simpl. unfold bind at 1. simpl. rewrite Haddr.
      simpl. unfold bind at 1.
      destruct (deployRawTx_off_chain env web3 valueToken symbol name decimals
                  conversionRate conversionRateDecimals organization before)
        as (raw & logged & -> & Hquiet).
      destruct (off_chain_counts logged Hquiet) as [Hsubmits Hreads].
      destruct raw as [t|e|e]; simpl;
        [|exists logged; rewrite Hsubmits, Hreads; auto..].
      unfold bind at 1, BrandedToken.sendTransaction.
      destruct (send_reply env _ t txOptions) as [receipt|reason]; simpl.
      * unfold bind at 1, lift.
        destruct (get_prop receipt "contractAddress") as [address|e|e]; simpl.
        -- destruct (constructor_off_chain env web3 address
                       ((before ++ logged) ++ [Submit t txOptions]))
             as (made & logged' & -> & Hquiet').
           destruct (off_chain_counts logged' Hquiet') as [Hsubmits' Hreads'].
           exists (logged ++ [Submit t txOptions] ++ logged').
           rewrite !count_app, Hsubmits, Hreads, Hsubmits', Hreads'.
           rewrite <- !app_assoc. destruct made; simpl; auto.
        -- exists (logged ++ [Submit t txOptions]).
           rewrite !count_app, Hsubmits, Hreads, app_assoc. simpl. auto.
        -- exists (logged ++ [Submit t txOptions]).
           rewrite !count_app, Hsubmits, Hreads, app_assoc. simpl. auto.
      * exists (logged ++ [Submit t txOptions]).
        rewrite !count_app, Hsubmits, Hreads, app_assoc. simpl. auto.
    + rewrite acceptStakeRequest_after_validation by done.
      apply Hbounded, send_after_raw, acceptStakeRequestRawTx_off_chain.
    + rewrite rejectStakeRequest_after_validation by done.
      apply Hbounded, send_after_raw, rejectStakeRequestRawTx_off_chain.
    + rewrite liftRestriction_after_validation by done.
      apply Hbounded, send_after_raw, liftRestrictionRawTx_off_chain.
    + rewrite redeem_after_validation by done.
      apply Hbounded, send_after_raw, redeemRawTx_off_chain.
    + (* requestStake *)
      rewrite requestStake_after_validation by done.
      unfold async, bind, BrandedToken.convertToBrandedTokens, BrandedToken.call.
      destruct (call_reply env before _ _ _) as [mintedAmount|reason].
      * unfold BrandedToken.requestStakeRawTx, ret, BrandedToken.sendTransaction.
        match goal with
        | |- context [Submit ?t txOptions] =>
            exists [Read (BrandedToken.contract_ this) "convertToBrandedTokens"
                      [stakeAmount]; Submit t txOptions]
        end.
        destruct (send_reply env _ _ txOptions); simpl;
          rewrite <- app_assoc; auto.
      * exists [Read (BrandedToken.contract_ this) "convertToBrandedTokens"
                  [stakeAmount]]. simpl. auto.
  - assert (forall A (outcome : result A * list event),
              validation_error before outcome -> bounded A 0 outcome) as Hinvalid.
    { intros A outcome Herror. by apply Hbounded, validation_error_counts. }
    repeat split.
    + by apply Hinvalid, deploy_invalid_from.
    + by apply Hinvalid, acceptStakeRequest_invalid_from.
    + by apply Hinvalid, rejectStakeRequest_invalid_from.
    + by apply Hinvalid, liftRestriction_invalid_from.
    + by apply Hinvalid, redeem_invalid_from.
    + destruct (validation_error_counts _ before
                  (requestStake_invalid_from env this stakeAmount txOptions
                     before Hvalid))
        as (result & added & -> & Hsubmits & Hreads).
      exists added. rewrite Hreads. auto.
Qed.

(** ** Staker: instances, connections and contract handles *)

Section Handles.
Variable env : Env.







End Handles.



(** ** Staker: reads *)



(** X13. The three lookups on an instance that holds its provider, called
    with a [Web3] instance as [originWeb3]: each reads once, prints nothing
    and submits nothing, and its outcome is the answer of the chain.
    [_getStakeRequestHashForStakerRawTx] reads [stakeRequestHashes(staker)]
    and [_getStakeRequestRawTx] reads [stakeRequests(hash)] from the
    BrandedToken contract at the stored [brandedToken];
    [_getGCStakeRequestRawTx] reads [stakeRequests(hash)] from the
    GatewayComposer contract at the stored [gatewayComposer].  The contract
    is on the connection passed, not on the stored one. *)
Theorem lookups_read_from_the_connection_passed
    env this key c txOptions before :
  Staker.field this "abiBinProvider" = JAbiBinProvider ->
  let token :=
    Contract c (getABI env Staker.brandedTokenContractName)
      (Staker.field this "brandedToken") txOptions in
  let composer :=
    Contract c (getABI env Staker.gatewayComposerContractName)
      (Staker.field this "gatewayComposer") txOptions in
  let answer (contract : contract) (name : string) : result jsval * list event :=
    (match call_reply env before contract name [key] with
     | inl value => Ok value
     | inr reason => Rejected (Remote reason)
     end, before ++ [Read contract name [key]]) in
  Staker._getStakeRequestHashForStakerRawTx env this key (JWeb3 c) txOptions before
  = answer token "stakeRequestHashes"
  /\ Staker._getStakeRequestRawTx env this key (JWeb3 c) txOptions before
     = answer token "stakeRequests"
  /\ Staker._getGCStakeRequestRawTx env this key (JWeb3 c) txOptions before
     = answer composer "stakeRequests".
Proof.
  intros Hprovider token composer answer.
  unfold Staker._getStakeRequestHashForStakerRawTx, Staker._getStakeRequestRawTx,
    Staker._getGCStakeRequestRawTx, answer.
  rewrite Hprovider. js_step. fold token. fold composer. unfold Staker.call.
  repeat split; by destruct (call_reply env _ _ _ _).
Qed.

Lemma lookups_read_from_the_connection_passed_witness :
  exists contract,
    run (Staker._getGCStakeRequestRawTx Double.env Double.staker (JStr "0xhash")
           (JWeb3 7) JUndefined)
    = (Ok (JStr "35"), [Read contract "stakeRequests" [JStr "0xhash"]])
    /\ c_conn contract = 7 /\ c_address contract = Double.addr1.
Proof.
  pose proof (lookups_read_from_the_connection_passed Double.env Double.staker
                (JStr "0xhash") 7 JUndefined [] eq_refl) as Hreads.
  cbv zeta in Hreads. destruct Hreads as (_ & _ & Hcomposer).
  eexists. split; [exact Hcomposer | split; reflexivity].
Defined.

(** ** Staker: the composer call and the approval call *)





(** X16. [approveForValueToken] only builds.  Where the scope binds no
    [originWeb3], as the module leaves it, every call throws the
    ReferenceError for [originWeb3], whatever the ABI is.  Where the scope
    binds [originWeb3] and [txOptions], the ABI is not empty and the
    connection in use is a [Web3] instance, it returns the unsent call
    [approve(gatewayComposer, stakeAmountInWei)] on the contract at the
    stored [valueToken], bound to the ABI passed and to the [txOptions] of
    the scope.  In no case does it add an event: nothing is submitted. *)
Theorem approveForValueToken_only_builds
    globals this valueTokenAbi stakeAmountInWei before :
  (Staker.approveForValueToken globals this valueTokenAbi stakeAmountInWei
     before).2 = before
  /\ (globals !! "originWeb3" = None ->
      Staker.approveForValueToken globals this valueTokenAbi stakeAmountInWei
        before
      = (Thrown (ReferenceError "originWeb3"), before))
  /\ (forall originWeb3 txOptions c,
      globals !! "originWeb3" = Some originWeb3 ->
      globals !! "txOptions" = Some txOptions ->
      js_or originWeb3 (Staker.field this "originWeb3") = JWeb3 c ->
      length valueTokenAbi <> 0 ->
      Staker.approveForValueToken globals this valueTokenAbi stakeAmountInWei
        before
      = (Ok (MethodCall
               (Contract c (JArr valueTokenAbi) (Staker.field this "valueToken")
                  txOptions)
               "approve"
               [Staker.field this "gatewayComposer"; stakeAmountInWei]),
         before)).
Proof.
  split; [|split].
  - destruct (approveForValueToken_cases globals this valueTokenAbi
                stakeAmountInWei before)
      as [(contract & args & -> & _) | [e ->]]; done.
  - intros Hunbound. unfold Staker.approveForValueToken.
    by rewrite (free_unbound globals _ Hunbound).
  - intros originWeb3 txOptions c Hweb3 Hoptions Hconnection Hlength.
    unfold Staker.approveForValueToken.
    rewrite (free_bound globals _ _ Hweb3), (free_bound globals _ _ Hoptions).
    js_step. rewrite Hconnection.
    destruct (length valueTokenAbi); done.
Qed.

Lemma approveForValueToken_only_builds_witness :
  run (Staker.approveForValueToken ∅ Double.staker [JStr "approve"] (JStr "100"))
  = (Thrown (ReferenceError "originWeb3"), [])
  /\ run (Staker.approveForValueToken
            {[ "originWeb3" := JUndefined; "txOptions" := Double.from1 ]}
            Double.staker [JStr "approve"] (JStr "100"))
     = (Ok (MethodCall
              (Contract 0 (JArr [JStr "approve"]) Double.addr1 Double.from1)
              "approve" [Double.addr1; JStr "100"]), []).
Proof.
  split.
  - destruct (approveForValueToken_only_builds ∅ Double.staker [JStr "approve"]
                (JStr "100") []) as (_ & Hmodule & _).
    exact (Hmodule eq_refl).
  - destruct (approveForValueToken_only_builds
                {[ "originWeb3" := JUndefined; "txOptions" := Double.from1 ]}
                Double.staker [JStr "approve"] (JStr "100") [])
      as (_ & _ & Hbuilds).
    apply (Hbuilds JUndefined Double.from1 0); try reflexivity.
    simpl. lia.
Defined.

(** ** Staker: what [stake] can add to the events *)

Section StakeEvents.
Variable env : Env.
Variable globals : gmap string jsval.

Lemma requestStake_bounded
    this owner stakeVT mintBT gateway gasPrice gasLimit beneficiary nonce
    originWeb3 txOptions t :
  exists outcome added,
    Staker.requestStake env this owner stakeVT mintBT gateway gasPrice gasLimit
      beneficiary nonce originWeb3 txOptions t
    = (outcome, t ++ added)
    /\ count is_submit added <= 1
    /\ count is_read added = 0
    /\ (forall receipt,
        outcome = Ok receipt ->
        count is_submit added = 1
        /\ existsb (submits "requestStake") added = true).
Proof.
  unfold Staker.requestStake, bind.
  destruct (_requestStakeRawTx_cases env this owner stakeVT mintBT gateway
              beneficiary gasPrice gasLimit nonce originWeb3 txOptions t)
    as [(contract & args & ->) | [e ->]].
  - unfold Staker.send.
    destruct (send_reply env _ _ txOptions); do 2 eexists;
      (split; [by rewrite <- app_assoc|]); simpl; auto.
  - exists (Thrown e), []. rewrite app_nil_r. simpl.
    repeat split; auto; done.
Qed.

End StakeEvents.

(** X17. Whatever the scope binds and whatever the chain answers, [stake]
    never reads from the chain and submits at most one transaction; when its
    promise is fulfilled it has submitted exactly one, the composer's
    [requestStake]. *)
Theorem stake_submits_at_most_the_composer_call
    env globals this valueTokenAbi owner stakeVTAmountInWei mintBTAmountInWei
    gatewayAddress gasPrice gasLimit beneficiary stakerGatewayNonce before :
  exists outcome added,
    Staker.stake env globals this valueTokenAbi owner stakeVTAmountInWei
      mintBTAmountInWei gatewayAddress gasPrice gasLimit beneficiary
      stakerGatewayNonce before
    = (outcome, before ++ added)
    /\ count is_submit added <= 1
    /\ count is_read added = 0
    /\ (outcome = Ok tt ->
        count is_submit added = 1
        /\ existsb (submits "requestStake") added = true).
Proof.
  assert (forall e : error,
            exists (outcome : result unit) added,
              (Rejected e, before) = (outcome, before ++ added)
              /\ count is_submit added <= 1
              /\ count is_read added = 0
              /\ (outcome = Ok tt ->
                  count is_submit added = 1
                  /\ existsb (submits "requestStake") added = true)) as Hsilent.
  { intros e. exists (Rejected e), []. rewrite app_nil_r. simpl.
    repeat split; auto; done. }
  unfold Staker.stake, async, bind at 1.
  destruct (free_cases globals "oThis") as [[oThis HoThis] | HoThis];
    rewrite HoThis; simpl; [|apply Hsilent].
  unfold bind at 1.
  destruct (receiver_cases oThis "approveForValueToken") as [[approver ->] | [e ->]];
    simpl; [|apply Hsilent].
  unfold bind at 1.
  destruct (approveForValueToken_cases globals approver valueTokenAbi
              stakeVTAmountInWei before)
    as [(contract & args & -> & _) | [e ->]]; [|apply Hsilent].
  unfold bind at 1. simpl. unfold bind at 1.
  destruct (receiver_cases oThis "requestStake") as [[requester ->] | [e ->]];
    simpl; [|apply Hsilent].
  unfold bind at 1.
  destruct (get_prop oThis "originWeb3") as [originWeb3|e|e]; simpl;
    [|apply Hsilent..].
  unfold bind at 1.
  destruct (get_prop oThis "txOptions") as [txOptions|e|e]; simpl;
    [|apply Hsilent..].
  unfold bind at 1.
  destruct (requestStake_bounded env requester owner stakeVTAmountInWei
              mintBTAmountInWei gatewayAddress gasPrice gasLimit beneficiary
              stakerGatewayNonce originWeb3 txOptions before)
    as (outcome & added & -> & Hsubmits & Hreads & Hfulfilled).
  destruct outcome as [receipt|e|e]; simpl.
  - exists (Ok tt), added. repeat split; auto; by apply (Hfulfilled receipt).
  - exists (Rejected e), added. repeat split; auto; done.
  - exists (Rejected e), added. repeat split; auto; done.
Qed.

Lemma stake_submits_at_most_the_composer_call_witness :
  exists added,
    (run (Staker.stake Double.env
            {[ "oThis" := JStaker Double.staker;
               "originWeb3" := JWeb3 0;
               "txOptions" := Double.from1 ]}
            Double.staker [JStr "approve"] Double.addr1 (JStr "100") (JStr "35")
            Double.addr2 (JStr "1") (JStr "2") Double.addr1 (JStr "1"))).2
    = added
    /\ count is_submit added = 1
    /\ existsb (submits "requestStake") added = true.
Proof.
  destruct (stake_submits_at_most_the_composer_call Double.env
              {[ "oThis" := JStaker Double.staker;
                 "originWeb3" := JWeb3 0;
                 "txOptions" := Double.from1 ]}
              Double.staker [JStr "approve"] Double.addr1 (JStr "100")
              (JStr "35") Double.addr2 (JStr "1") (JStr "2") Double.addr1
              (JStr "1") [])
    as (outcome & added & Hstake & _ & _ & Hfulfilled).
  assert (outcome = Ok tt) as Houtcome.
  { apply (f_equal fst) in Hstake. simpl in Hstake. rewrite <- Hstake.
    reflexivity. }
  exists added. split.
  - unfold run. rewrite Hstake. reflexivity.
  - exact (Hfulfilled Houtcome).
Defined.
